(** * go-office365: the subscription watcher

    A shallow embedding of [SubscriptionWatcher] (constructor, state store,
    generator and fetcher) and of the pieces of [schema/record.go] it uses,
    followed by the properties of the watcher.

    Conventions of the embedding.
    - Go's [int] and [time.Duration] are 64-bit signed integers: they are
      modelled in [Z] and every arithmetic operation of the source is
      followed by [wrap64].
    - A [time.Time] is modelled by the instant it denotes, as the number of
      nanoseconds since Go's zero time (January 1, year 1, 00:00:00 UTC), so
      [IsZero] is a comparison with 0 and [Before]/[After] compare instants.
    - A Go pointer that may be nil is an [option]; dereferencing [None] is a
      run-time panic, made explicit in the [outcome] type.
    - The three remote operations ([Subscription.List], [Content.List],
      [Audit.List]) belong to the HTTP client and are the fields of the
      [Env] interface; they act on an abstract world and the calls they
      receive are logged.
    - Channels are lists: the internal bus is a bounded FIFO, the output
      channel is the sequence of the Resources that were sent on it.
    - A slice is a list: a Resource sent on a channel is a copy, and the
      appends of its successive holders are taken not to overlap.
    - The goroutine of a tick and one iteration of a fetcher are each taken
      as one step of the watcher; the [DEBUG] lines a fetcher prints are
      left out. *)

From Stdlib Require Import ZArith Lia.
From stdpp Require Import relations gmap strings list.

Local Open Scope Z_scope.

(** ** Machine integers and time *)

Definition wrap64 (z : Z) : Z := (z + 2 ^ 63) mod 2 ^ 64 - 2 ^ 63.

Definition minInt64 : Z := - 2 ^ 63.
Definition maxInt64 : Z := 2 ^ 63 - 1.

Definition Duration := Z.
Definition Time := Z.

Definition Second : Duration := 1000000000.
Definition Minute : Duration := 60 * Second.
Definition Hour : Duration := 60 * Minute.

(** [time.Duration(n) * unit], an int64 multiplication. *)
Definition durationOf (n : Z) (unit : Duration) : Duration := wrap64 (n * unit).

(** [t.IsZero()]. *)
Definition IsZero (t : Time) : bool := t =? 0.

(** [t.Before(u)] and [t.After(u)]. *)
Definition Before (t u : Time) : bool := t <? u.
Definition After (t u : Time) : bool := u <? t.

(** [t.Sub(u)]: the duration t-u, saturated to the range of a Duration. *)
Definition Sub (t u : Time) : Duration :=
  let d := t - u in
  if d <? minInt64 then minInt64
  else if maxInt64 <? d then maxInt64
  else d.

(** [t.Add(d)]. *)
Definition Add (t : Time) (d : Duration) : Time := t + d.

(** Unary minus on a Duration. *)
Definition neg (d : Duration) : Duration := wrap64 (- d).

(** ** schema/record.go: content types *)

Inductive ContentType : Set :=
| AuditAzureActiveDirectory
| AuditExchange
| AuditSharePoint
| AuditGeneral
| DLPAll.

#[global] Instance ContentType_eq_dec : EqDecision ContentType.
Proof. solve_decision. Defined.

Definition ContentType_to_nat (c : ContentType) : nat :=
  match c with
  | AuditAzureActiveDirectory => 0
  | AuditExchange => 1
  | AuditSharePoint => 2
  | AuditGeneral => 3
  | DLPAll => 4
  end%nat.

Definition ContentType_of_nat (n : nat) : option ContentType :=
  match n with
  | 0 => Some AuditAzureActiveDirectory
  | 1 => Some AuditExchange
  | 2 => Some AuditSharePoint
  | 3 => Some AuditGeneral
  | 4 => Some DLPAll
  | _ => None
  end%nat.

#[global] Instance ContentType_countable : Countable ContentType.
Proof.
  refine (inj_countable ContentType_to_nat ContentType_of_nat _).
  intros []; reflexivity.
Defined.

Definition error := string.

Inductive result (A : Type) : Type :=
| Ok (a : A)
| Err (e : error).
Arguments Ok {A} a.
Arguments Err {A} e.

(** The table [contentTypes]. *)
Definition contentTypes : gmap string ContentType :=
  list_to_map
    [ ("Audit.AzureActiveDirectory"%string, AuditAzureActiveDirectory);
      ("Audit.Exchange"%string, AuditExchange);
      ("Audit.SharePoint"%string, AuditSharePoint);
      ("Audit.General"%string, AuditGeneral);
      ("DLP.All"%string, DLPAll) ].

(** [GetContentType]: the pointer it returns is never nil on success. *)
Definition GetContentType (s : string) : result ContentType :=
  match contentTypes !! s with
  | Some v => Ok v
  | None => Err "ContentType invalid"%string
  end.

(** [AuditRecord]: the envelope of schema/record.go; every field is a
    nullable pointer. The enumerations are kept as their integer codes. *)
Record AuditRecord : Type := {
  ID : option string;
  RecordType : option Z;
  CreationTime : option string;
  Operation : option string;
  OrganizationID : option string;
  UserType : option Z;
  UserKey : option string;
  Workload : option string;
  ResultStatus : option string;
  ObjectID : option string;
  UserID : option string;
  ClientIP : option string;
  Scope : option Z
}.

(** ** Declarations of the package that the watcher uses *)

(** Modelled from the spec: the [Subscription] struct is declared outside the
    watcher's file; "the watcher only consumes the content-type" string. *)
Record Subscription : Type := {
  sub_ContentType : string
}.

(** Modelled from the spec: the [Content] descriptor struct; "only ContentID
    and ContentCreated are load-bearing for the watcher". *)
Record Content : Type := {
  ContentID : string;
  ContentCreated : string;
  ContentExpiration : string
}.

(** Modelled from the spec: the request part of a Resource, "(ContentType,
    RequestTime) populated by the Generator". The watcher passes
    [r.Request.ContentType] where a [*ContentType] is expected, hence the
    option. *)
Record ResourceRequest : Type := {
  req_ContentType : option ContentType;
  RequestTime : Time
}.

(** Modelled from the spec: the [Resource] struct, which "bundles a Request
    part, a Response part (a sequence of AuditRecord) and an accumulated
    error list". [Resource{}] has no request, no record and no error. *)
Record Resource : Type := {
  Request : option ResourceRequest;
  Response : list AuditRecord;
  Errors : list error
}.

Definition emptyResource : Resource :=
  {| Request := None; Response := []; Errors := [] |}.

(** Modelled from the spec: [AddError], "the error is appended to the
    Resource". *)
Definition AddError (r : Resource) (e : error) : Resource :=
  {| Request := Request r; Response := Response r; Errors := Errors r ++ [e] |}.

(** Modelled from the spec: [SetRequest], "Request = {ContentType,
    RequestTime = tickInstant}". *)
Definition SetRequest (r : Resource) (ct : ContentType) (t : Time) : Resource :=
  {| Request := Some {| req_ContentType := Some ct; RequestTime := t |};
     Response := Response r;
     Errors := Errors r |}.

(** Modelled from the spec: [SetResponse], the response part "populated by
    the Fetcher" with the records it collected. *)
Definition SetResponse (r : Resource) (records : list AuditRecord) : Resource :=
  {| Request := Request r; Response := records; Errors := Errors r |}.

(** Modelled from the spec: the constant [contentTypeCount], "the cardinality
    of the enumeration; it sizes the fetcher pool and the bus capacity". *)
Definition contentTypeCount : nat := 5.

(** Modelled from the spec: the constant [intervalOneDay], the "1 day" of the
    window derivation. *)
Definition intervalOneDay : Duration := 24 * Hour.

(** ** The watcher *)

Record SubscriptionWatcherConfig : Type := {
  LookBehindMinutes : Z;
  TickerIntervalSeconds : Z
}.

Record SubscriptionWatcher : Type := {
  config : SubscriptionWatcherConfig;
  queue : list Resource;
  contentTypeBusy : gmap ContentType bool;
  lastContentCreated : gmap ContentType Time;
  lastRequestTime : gmap ContentType Time
}.

(** [NewSubscriptionWatcher]; the client is left out, it plays no part in the
    validation. *)
Definition NewSubscriptionWatcher (conf : SubscriptionWatcherConfig)
  : result SubscriptionWatcher :=
  let lookBehindDur := durationOf (LookBehindMinutes conf) Minute in
  if lookBehindDur <=? 0 then
    Err "lookBehindMinutes must be greater than 0"%string
  else if 24 * Hour <? lookBehindDur then
    Err "lookBehindMinutes must be less than or equal to 24 hours"%string
  else
    let tickerIntervalDur := durationOf (TickerIntervalSeconds conf) Second in
    if tickerIntervalDur <=? 0 then
      Err "tickerIntervalSeconds must be greater than 0"%string
    else if Hour <? tickerIntervalDur then
      Err "tickerIntervalSeconds must be less than or equal to 1 hour"%string
    else
      Ok {| config := conf;
            queue := [];
            contentTypeBusy := ∅;
            lastContentCreated := ∅;
            lastRequestTime := ∅ |}.

(** *** State store *)

Definition with_queue (q : list Resource) (s : SubscriptionWatcher) :=
  {| config := config s; queue := q;
     contentTypeBusy := contentTypeBusy s;
     lastContentCreated := lastContentCreated s;
     lastRequestTime := lastRequestTime s |}.

Definition with_busy (m : gmap ContentType bool) (s : SubscriptionWatcher) :=
  {| config := config s; queue := queue s;
     contentTypeBusy := m;
     lastContentCreated := lastContentCreated s;
     lastRequestTime := lastRequestTime s |}.

Definition with_created (m : gmap ContentType Time) (s : SubscriptionWatcher) :=
  {| config := config s; queue := queue s;
     contentTypeBusy := contentTypeBusy s;
     lastContentCreated := m;
     lastRequestTime := lastRequestTime s |}.

Definition with_request (m : gmap ContentType Time) (s : SubscriptionWatcher) :=
  {| config := config s; queue := queue s;
     contentTypeBusy := contentTypeBusy s;
     lastContentCreated := lastContentCreated s;
     lastRequestTime := m |}.

(** [sendResourceOrSkip]: a non-blocking send on the bus, a channel of
    capacity [contentTypeCount]. *)
Definition sendResourceOrSkip (r : Resource) (s : SubscriptionWatcher)
  : SubscriptionWatcher :=
  if decide (length (queue s) < contentTypeCount)%nat
  then with_queue (queue s ++ [r]) s
  else s.

(** [isBusy]: an absent key is recorded as not busy. *)
Definition isBusy (ct : ContentType) (s : SubscriptionWatcher)
  : bool * SubscriptionWatcher :=
  match contentTypeBusy s !! ct with
  | Some busy => (busy, s)
  | None => (false, with_busy (<[ct := false]> (contentTypeBusy s)) s)
  end.

Definition setBusy (ct : ContentType) (s : SubscriptionWatcher) :=
  with_busy (<[ct := true]> (contentTypeBusy s)) s.

Definition unsetBusy (ct : ContentType) (s : SubscriptionWatcher) :=
  with_busy (<[ct := false]> (contentTypeBusy s)) s.

(** The update shared by the two watermark setters:
    [last, ok := m[ct]; if !ok || last.Before(t) { m[ct] = t }]. *)
Definition setLast (ct : ContentType) (t : Time) (m : gmap ContentType Time)
  : gmap ContentType Time :=
  match m !! ct with
  | Some last => if Before last t then <[ct := t]> m else m
  | None => <[ct := t]> m
  end.

(** The read shared by the two getters: the zero time when absent. *)
Definition getLast (ct : ContentType) (m : gmap ContentType Time) : Time :=
  match m !! ct with
  | Some t => t
  | None => 0
  end.

Definition setLastContentCreated (ct : ContentType) (t : Time)
    (s : SubscriptionWatcher) :=
  with_created (setLast ct t (lastContentCreated s)) s.

Definition getLastContentCreated (ct : ContentType) (s : SubscriptionWatcher)
  : Time := getLast ct (lastContentCreated s).

Definition setLastRequestTime (ct : ContentType) (t : Time)
    (s : SubscriptionWatcher) :=
  with_request (setLast ct t (lastRequestTime s)) s.

Definition getLastRequestTime (ct : ContentType) (s : SubscriptionWatcher)
  : Time := getLast ct (lastRequestTime s).

(** *** Window derivation (the [switch] of the fetcher) *)

Definition fetchWindow (conf : SubscriptionWatcherConfig)
    (lastRequest requestTime : Time) : Time * Time :=
  let start := lastRequest in
  let end_ := requestTime in
  let delta := Sub start requestTime in
  if IsZero start || (delta <? Minute) then
    let lookBehind := durationOf (LookBehindMinutes conf) Minute in
    (Add requestTime (neg lookBehind), end_)
  else if intervalOneDay <? delta then
    (Add requestTime (neg intervalOneDay), end_)
  else
    (start, end_).

(** ** The environment of the watcher *)

(** The remote calls the watcher makes, as the API sees them. *)
Inductive Call : Type :=
| CallSubscriptionList
| CallContentList (ct : ContentType) (start end_ : Time)
| CallAuditList (contentID : string).

(** The collaborators of the watcher: the three services of the client
    ([s.client.Subscription.List], [s.client.Content.List],
    [s.client.Audit.List]), each of which may change the remote world, and
    [time.ParseInLocation(CreatedDatetimeFormat, _, time.Local)], a function
    of the string alone for a fixed local zone. *)
Class Env (World : Type) : Type := {
  Subscription_List : World -> result (list Subscription) * World;
  Content_List : ContentType -> Time -> Time -> World -> result (list Content) * World;
  Audit_List : string -> World -> result (list AuditRecord) * World;
  ParseInLocation : string -> result Time
}.

(** The watcher together with what surrounds it: the remote world, the log
    of the calls received by the API and the Resources sent on [out]. *)
Record System (World : Type) : Type := {
  watcher : SubscriptionWatcher;
  world : World;
  calls : list Call;
  out : list Resource
}.
Arguments watcher {World} _.
Arguments world {World} _.
Arguments calls {World} _.
Arguments out {World} _.

(** A run-time panic (nil dereference) or a normal completion. *)
Inductive outcome (A : Type) : Type :=
| Done (a : A)
| Panic.
Arguments Done {A} a.
Arguments Panic {A}.

Section Watcher.
Context {World : Type} `{E : Env World}.

(** State passing, in monadic form. *)
Definition M (A : Type) : Type := System World -> A * System World.

Definition ret {A} (a : A) : M A := fun s => (a, s).

Definition bind {A B} (m : M A) (k : A -> M B) : M B :=
  fun s => let '(a, s') := m s in k a s'.

Notation "x <~ m ;; k" := (bind m (fun x => k))
  (at level 90, m at next level, right associativity).
Notation "m ;;; k" := (bind m (fun _ => k))
  (at level 90, right associativity).

Definition modifyW (f : SubscriptionWatcher -> SubscriptionWatcher) : M unit :=
  fun s => (tt, {| watcher := f (watcher s); world := world s;
                   calls := calls s; out := out s |}).

Definition readW {A} (f : SubscriptionWatcher -> A) : M A :=
  fun s => (f (watcher s), s).

Definition stateW {A} (f : SubscriptionWatcher -> A * SubscriptionWatcher) : M A :=
  fun s => let '(a, w) := f (watcher s) in
           (a, {| watcher := w; world := world s;
                  calls := calls s; out := out s |}).

Definition remote {A} (c : Call) (f : World -> result A * World) : M (result A) :=
  fun s => let '(a, w) := f (world s) in
           (a, {| watcher := watcher s; world := w;
                  calls := calls s ++ [c]; out := out s |}).

(** [out <- r]. *)
Definition emit (r : Resource) : M unit :=
  fun s => (tt, {| watcher := watcher s; world := world s;
                   calls := calls s; out := out s ++ [r] |}).

(** *** Generator: the body of the goroutine started at a tick *)

(** The loop [for _, sub := range subscriptions], around the one
    [resource] variable of the goroutine. *)
Fixpoint generatorLoop (t : Time) (subscriptions : list Subscription)
    (resource : Resource) : M Resource :=
  match subscriptions with
  | [] => ret resource
  | sub :: rest =>
      match GetContentType (sub_ContentType sub) with
      | Err err =>
          let resource := AddError resource err in
          modifyW (sendResourceOrSkip resource) ;;;
          generatorLoop t rest resource
      | Ok ct =>
          busy <~ stateW (isBusy ct) ;;
          if (busy : bool) then generatorLoop t rest resource
          else
            let resource := SetRequest resource ct t in
            modifyW (sendResourceOrSkip resource) ;;;
            generatorLoop t rest resource
      end
  end.

Definition generatorTick (t : Time) : M unit :=
  let resource := emptyResource in
  listed <~ remote CallSubscriptionList Subscription_List ;;
  match listed with
  | Err err =>
      let resource := AddError resource err in
      modifyW (sendResourceOrSkip resource)
  | Ok subscriptions =>
      generatorLoop t subscriptions resource ;;; ret tt
  end.

(** *** Fetcher: the body of [for r := range s.queue] *)

(** The loop [for _, c := range content]; [lastCreated] is the local
    variable read before the loop. *)
Fixpoint fetchContent (ct : ContentType) (lastCreated : Time)
    (content : list Content) (r : Resource) (records : list AuditRecord)
  : M (Resource * list AuditRecord) :=
  match content with
  | [] => ret (r, records)
  | c :: rest =>
      match ParseInLocation (ContentCreated c) with
      | Err err => fetchContent ct lastCreated rest (AddError r err) records
      | Ok created =>
          if negb (After created lastCreated)
          then fetchContent ct lastCreated rest r records
          else
            modifyW (setLastContentCreated ct created) ;;;
            listed <~ remote (CallAuditList (ContentID c)) (Audit_List (ContentID c)) ;;
            match listed with
            | Err err => fetchContent ct lastCreated rest (AddError r err) records
            | Ok audits => fetchContent ct lastCreated rest r (records ++ audits)
            end
      end
  end.

(** The iteration once [r.Request.ContentType] has been dereferenced. *)
Definition fetch (ct : ContentType) (rq : ResourceRequest) (r : Resource) : M unit :=
  modifyW (setBusy ct) ;;;
  lastRequest <~ readW (getLastRequestTime ct) ;;
  lastCreated <~ readW (getLastContentCreated ct) ;;
  conf <~ readW config ;;
  let window := fetchWindow conf lastRequest (RequestTime rq) in
  listed <~ remote (CallContentList ct (fst window) (snd window))
                   (Content_List ct (fst window) (snd window)) ;;
  match listed with
  | Err err =>
      emit (AddError r err) ;;;
      modifyW (unsetBusy ct)
  | Ok content =>
      modifyW (setLastRequestTime ct (RequestTime rq)) ;;;
      looped <~ fetchContent ct lastCreated content r [] ;;
      emit (SetResponse (fst looped) (snd looped)) ;;;
      modifyW (unsetBusy ct)
  end.

(** One iteration of the fetcher on the Resource [r] received from the
    bus. [s.setBusy(r.Request.ContentType)] dereferences the request and
    then the content type: either being nil is a panic. *)
Definition fetcherBody (r : Resource) (s : System World) : outcome (System World) :=
  match Request r with
  | None => Panic
  | Some rq =>
      match req_ContentType rq with
      | None => Panic
      | Some ct => Done (snd (fetch ct rq r s))
      end
  end.

(** Receiving from the bus. *)
Definition receive (s : System World) : option (Resource * System World) :=
  match queue (watcher s) with
  | [] => None
  | r :: q => Some (r, {| watcher := with_queue q (watcher s); world := world s;
                          calls := calls s; out := out s |})
  end.

(** The watcher as a transition system: a tick runs the generator's
    goroutine, a fetcher receives a Resource and runs one iteration. Each
    is taken as one step. *)
Inductive step : System World -> System World -> Prop :=
| step_tick (t : Time) (s : System World) :
    step s (snd (generatorTick t s))
| step_fetch (r : Resource) (s s1 s' : System World) :
    receive s = Some (r, s1) ->
    fetcherBody r s1 = Done s' ->
    step s s'.

(** The system right after [NewSubscriptionWatcher] and [Run]. *)
Definition initial (conf : SubscriptionWatcherConfig) (w0 : World)
    (s : System World) : Prop :=
  exists w, NewSubscriptionWatcher conf = Ok w /\
    s = {| watcher := w; world := w0; calls := []; out := [] |}.

Inductive reachable (conf : SubscriptionWatcherConfig) (w0 : World)
  : System World -> Prop :=
| reach_init s : initial conf w0 s -> reachable conf w0 s
| reach_step s s' : reachable conf w0 s -> step s s' -> reachable conf w0 s'.

End Watcher.

(** ** Vocabulary of the statements *)

(** Order on the stored value of a watermark: absent, then by instant. *)
Definition watermark_le (o o' : option Time) : Prop :=
  match o, o' with
  | None, _ => True
  | Some l, Some l' => l <= l'
  | Some _, None => False
  end.

(** The larger of what is stored and the incoming value. *)
Definition storedMax (o : option Time) (t : Time) : Time :=
  match o with
  | Some l => Z.max l t
  | None => t
  end.

(** A Resource whose request names a content type. *)
Definition contentTypeSet (r : Resource) : Prop :=
  exists rq ct, Request r = Some rq /\ req_ContentType rq = Some ct.

(** What the loop over the descriptors does with one of them. *)
Inductive verdict : Type :=
| ParseFailed (e : error)
| Skipped
| Audited (contentID : string) (created : Time) (listed : result (list AuditRecord)).

Definition verdictCalls (v : verdict) : list Call :=
  match v with
  | Audited id _ _ => [CallAuditList id]
  | _ => []
  end.

Definition verdictRecords (v : verdict) : list AuditRecord :=
  match v with
  | Audited _ _ (Ok audits) => audits
  | _ => []
  end.

Definition verdictErrors (v : verdict) : list error :=
  match v with
  | ParseFailed e => [e]
  | Audited _ _ (Err e) => [e]
  | _ => []
  end.

Definition verdictWatermark (ct : ContentType) (m : gmap ContentType Time)
    (v : verdict) : gmap ContentType Time :=
  match v with
  | Audited _ created _ => setLast ct created m
  | _ => m
  end.

Section Verdicts.
Context {World : Type} `{E : Env World}.

(** The loop over the descriptors, described descriptor by descriptor: a
    parse failure, a skip when [created <= lastCreated], an audit otherwise.
    [fetchContent] is compared with this description in
    [fetchContent_verdicts]. *)
Fixpoint verdicts (lastCreated : Time) (content : list Content) (w : World)
  : list verdict * World :=
  match content with
  | [] => ([], w)
  | c :: rest =>
      match ParseInLocation (ContentCreated c) with
      | Err e =>
          let later := verdicts lastCreated rest w in
          (ParseFailed e :: later.1, later.2)
      | Ok created =>
          if created <=? lastCreated then
            let later := verdicts lastCreated rest w in
            (Skipped :: later.1, later.2)
          else
            let listed := Audit_List (ContentID c) w in
            let later := verdicts lastCreated rest listed.2 in
            (Audited (ContentID c) created listed.1 :: later.1, later.2)
      end
  end.

(** The verdict that fits a descriptor, whatever the remote world is. *)
Definition classified (lastCreated : Time) (c : Content) (v : verdict) : Prop :=
  match v with
  | ParseFailed e => ParseInLocation (ContentCreated c) = Err e
  | Skipped =>
      exists created, ParseInLocation (ContentCreated c) = Ok created /\
                      created <= lastCreated
  | Audited id created _ =>
      id = ContentID c /\ ParseInLocation (ContentCreated c) = Ok created /\
      lastCreated < created
  end.
End Verdicts.

(** ** Scenarios *)

(** An environment given by tables: the remote world has no state. *)
Definition tableEnv
    (subscriptions : result (list Subscription))
    (content : ContentType -> result (list Content))
    (audits : string -> result (list AuditRecord))
    (stamps : list (string * Time)) : Env unit :=
  {| Subscription_List := fun w => (subscriptions, w);
     Content_List := fun ct _ _ w => (content ct, w);
     Audit_List := fun id w => (audits id, w);
     ParseInLocation := fun s =>
       match list_find (fun p => String.eqb (fst p) s = true) stamps with
       | Some (_, (_, t)) => Ok t
       | None => Err "cannot parse"%string
       end |}.

Definition subscription (s : string) : Subscription := {| sub_ContentType := s |}.

Definition descriptor (id created : string) : Content :=
  {| ContentID := id; ContentCreated := created; ContentExpiration := EmptyString |}.

Definition record (id : string) : AuditRecord :=
  {| ID := Some id; RecordType := None; CreationTime := None; Operation := None;
     OrganizationID := None; UserType := None; UserKey := None; Workload := None;
     ResultStatus := None; ObjectID := None; UserID := None; ClientIP := None;
     Scope := None |}.

(** 2024-01-01 at 11:05, 11:30, 12:00, 12:02 and 12:05 UTC. *)
Definition t1105 : Time := 63839703900 * Second.
Definition t1130 : Time := 63839705400 * Second.
Definition t1200 : Time := 63839707200 * Second.
Definition t1202 : Time := 63839707320 * Second.
Definition t1205 : Time := 63839707500 * Second.

Definition stampTable : list (string * Time) :=
  [ ("2024-01-01T11:30:00"%string, t1130);
    ("2024-01-01T12:02:00"%string, t1202) ].

Definition confA : SubscriptionWatcherConfig :=
  {| LookBehindMinutes := 60; TickerIntervalSeconds := 300 |}.

Definition watcherA : SubscriptionWatcher :=
  {| config := confA; queue := []; contentTypeBusy := ∅;
     lastContentCreated := ∅; lastRequestTime := ∅ |}.

Definition systemOf (w : SubscriptionWatcher) : System unit :=
  {| watcher := w; world := tt; calls := []; out := [] |}.

Definition requestFor (ct : ContentType) (t : Time) : ResourceRequest :=
  {| req_ContentType := Some ct; RequestTime := t |}.

(** The state of scenario A once its tick has been served: Exchange was
    listed at 12:00 and the descriptor of 11:30 was fetched. *)
Definition watcherB : SubscriptionWatcher :=
  {| config := confA; queue := [];
     contentTypeBusy := {[ AuditExchange := false ]};
     lastContentCreated := {[ AuditExchange := t1130 ]};
     lastRequestTime := {[ AuditExchange := t1200 ]} |}.

(** Content.List fails for SharePoint; otherwise two descriptors, the audits
    of the first of which cannot be listed. *)
Definition envE : Env unit :=
  tableEnv
    (Ok [subscription "Audit.SharePoint"; subscription "Audit.Exchange"])
    (fun ct => match ct with
               | AuditSharePoint => Err "transport error"%string
               | _ => Ok [descriptor "C1" "2024-01-01T11:30:00";
                          descriptor "C2" "2024-01-01T12:02:00"]
               end)
    (fun id => if String.eqb id "C1" then Err "audit error C1"%string
               else Ok [record "r5"])
    stampTable.

(** The listing comes back newest first. *)
Definition envNewestFirst : Env unit :=
  tableEnv
    (Ok [subscription "Audit.Exchange"])
    (fun _ => Ok [descriptor "C2" "2024-01-01T12:02:00";
                  descriptor "C1" "2024-01-01T11:30:00"])
    (fun id => if String.eqb id "C1" then Ok [record "r1"] else Ok [record "r3"])
    stampTable.

(** Nothing new to fetch. *)
Definition envQuiet : Env unit :=
  tableEnv (Ok [subscription "Audit.Exchange"]) (fun _ => Ok []) (fun _ => Ok [])
    stampTable.

(** The subscriptions cannot be listed. *)
Definition envDown : Env unit :=
  tableEnv (Err "subscriptions unavailable"%string) (fun _ => Ok [])
    (fun _ => Ok []) stampTable.

Section Frames.
Context {World : Type}.

(** The part of the system the generator's loop leaves alone, and the shape
    of what it adds to the bus. *)
Definition generatorFrame (r0 : Resource) (s : System World)
    (res : Resource * System World) : Prop :=
  world res.2 = world s /\ calls res.2 = calls s /\ out res.2 = out s /\
  config (watcher res.2) = config (watcher s) /\
  lastContentCreated (watcher res.2) = lastContentCreated (watcher s) /\
  lastRequestTime (watcher res.2) = lastRequestTime (watcher s) /\
  Response res.1 = Response r0 /\
  Errors r0 `prefix_of` Errors res.1 /\
  exists added,
    queue (watcher res.2) = queue (watcher s) ++ added /\
    Forall (fun r => Response r = Response r0 /\ Errors r0 `prefix_of` Errors r)
           added.

(** The window a fetch for [rq] derives in the watcher state [w]. *)
Definition windowOf (ct : ContentType) (rq : ResourceRequest)
    (w : SubscriptionWatcher) : Time * Time :=
  fetchWindow (config w) (getLastRequestTime ct w) (RequestTime rq).

(** The state in which the loop over the descriptors starts when the
    listing of a fetch in [s] succeeded and left the remote world [w1]. *)
Definition afterListing (ct : ContentType) (rq : ResourceRequest)
    (s : System World) (w1 : World) : System World :=
  {| watcher := setLastRequestTime ct (RequestTime rq) (setBusy ct (watcher s));
     world := w1;
     calls := calls s ++ [CallContentList ct (windowOf ct rq (watcher s)).1
                                             (windowOf ct rq (watcher s)).2];
     out := out s |}.

(** Resources on the bus carry no response yet. *)
Definition busInv (s : System World) : Prop :=
  Forall (fun r => Response r = []) (queue (watcher s)).

(** Resources on the output name their content type. *)
Definition outInv (s : System World) : Prop :=
  Forall contentTypeSet (out s).

(** One watermark map below another, content type by content type. *)
Definition watermarks_le (m m' : gmap ContentType Time) : Prop :=
  forall ct, watermark_le (m !! ct) (m' !! ct).

End Frames.

Section Run.
Context {World : Type} `{E : Env World}.

(** A fetcher step as a function: receive, then one iteration. *)
Definition fetchStep (s : System World) : option (System World) :=
  match receive s with
  | Some (r, s1) =>
      match fetcherBody r s1 with
      | Done s' => Some s'
      | Panic => None
      end
  | None => None
  end.

End Run.

(** Scenario D: the tick at 12:00, which puts SharePoint and Exchange on the
    bus. *)
Definition sysE1 : System unit := (generatorTick (E := envE) t1200 (systemOf watcherA)).2.

(** A quiet tick at 12:00 and its fetch. *)
Definition sysQ1 : System unit := (generatorTick (E := envQuiet) t1200 (systemOf watcherA)).2.
Definition sysQ2 : System unit := default sysQ1 (fetchStep (E := envQuiet) sysQ1).

Definition resourceFor (ct : ContentType) (t : Time) : Resource :=
  SetRequest emptyResource ct t.

Definition C1_1130 : Content := descriptor "C1" "2024-01-01T11:30:00".
Definition C2_1202 : Content := descriptor "C2" "2024-01-01T12:02:00".


(** ** schema/record.go: record types, user types, content type names *)

(** [AuditLogRecordType] is an [int]. *)
Definition AuditLogRecordType := Z.

(** The constants of the [AuditLogRecordType] enumeration. *)
Module RecordTypes.
Definition ExchangeAdminType : AuditLogRecordType := 1.
Definition ExchangeItemType : AuditLogRecordType := 2.
Definition ExchangeItemGroupType : AuditLogRecordType := 3.
Definition SharePointType : AuditLogRecordType := 4.
Definition SharePointFileOperationType : AuditLogRecordType := 6.
Definition OneDriveType : AuditLogRecordType := 7.
Definition AzureActiveDirectoryType : AuditLogRecordType := 8.
Definition AzureActiveDirectoryAccountLogonType : AuditLogRecordType := 9.
Definition DataCenterSecurityCmdletType : AuditLogRecordType := 10.
Definition ComplianceDLPSharePointType : AuditLogRecordType := 11.
Definition ComplianceDLPExchangeType : AuditLogRecordType := 13.
Definition SharePointSharingOperationType : AuditLogRecordType := 14.
Definition AzureActiveDirectoryStsLogonType : AuditLogRecordType := 15.
Definition SkypeForBusinessPSTNUsageType : AuditLogRecordType := 16.
Definition SkypeForBusinessUsersBlockedType : AuditLogRecordType := 17.
Definition SecurityComplianceCenterEOPCmdletType : AuditLogRecordType := 18.
Definition ExchangeAggregatedOperationType : AuditLogRecordType := 19.
Definition PowerBIAuditType : AuditLogRecordType := 20.
Definition CRMType : AuditLogRecordType := 21.
Definition YammerType : AuditLogRecordType := 22.
Definition SkypeForBusinessCmdletsType : AuditLogRecordType := 23.
Definition DiscoveryType : AuditLogRecordType := 24.
Definition MicrosoftTeamsType : AuditLogRecordType := 25.
Definition ThreatIntelligenceType : AuditLogRecordType := 28.
Definition MailSubmissionType : AuditLogRecordType := 29.
Definition MicrosoftFlowType : AuditLogRecordType := 30.
Definition AeDType : AuditLogRecordType := 31.
Definition MicrosoftStreamType : AuditLogRecordType := 32.
Definition ComplianceDLPSharePointClassificationType : AuditLogRecordType := 33.
Definition ThreatFinderType : AuditLogRecordType := 34.
Definition ProjectType : AuditLogRecordType := 35.
Definition SharePointListOperationType : AuditLogRecordType := 36.
Definition SharePointCommentOperationType : AuditLogRecordType := 37.
Definition DataGovernanceType : AuditLogRecordType := 38.
Definition KaizalaType : AuditLogRecordType := 39.
Definition SecurityComplianceAlertsType : AuditLogRecordType := 40.
Definition ThreatIntelligenceUrlType : AuditLogRecordType := 41.
Definition SecurityComplianceInsightsType : AuditLogRecordType := 42.
Definition MIPLabelType : AuditLogRecordType := 43.
Definition WorkplaceAnalyticsType : AuditLogRecordType := 44.
Definition PowerAppsAppType : AuditLogRecordType := 45.
Definition PowerAppsPlanType : AuditLogRecordType := 46.
Definition ThreatIntelligenceAtpContentType : AuditLogRecordType := 47.
Definition LabelContentExplorerType : AuditLogRecordType := 48.
Definition TeamsHealthcareType : AuditLogRecordType := 49.
Definition ExchangeItemAggregatedType : AuditLogRecordType := 50.
Definition HygieneEventType : AuditLogRecordType := 51.
Definition DataInsightsRestApiAuditType : AuditLogRecordType := 52.
Definition InformationBarrierPolicyApplicationType : AuditLogRecordType := 53.
Definition SharePointListItemOperationType : AuditLogRecordType := 54.
Definition SharePointContentTypeOperationType : AuditLogRecordType := 55.
Definition SharePointFieldOperationType : AuditLogRecordType := 56.
Definition MicrosoftTeamsAdminType : AuditLogRecordType := 57.
Definition HRSignalType : AuditLogRecordType := 58.
Definition MicrosoftTeamsDeviceType : AuditLogRecordType := 59.
Definition MicrosoftTeamsAnalyticsType : AuditLogRecordType := 60.
Definition InformationWorkerProtectionType : AuditLogRecordType := 61.
Definition CampaignType : AuditLogRecordType := 62.
Definition DLPEndpointType : AuditLogRecordType := 63.
Definition AirInvestigationType : AuditLogRecordType := 64.
Definition QuarantineType : AuditLogRecordType := 65.
Definition MicrosoftFormsType : AuditLogRecordType := 66.
Definition ApplicationAuditType : AuditLogRecordType := 67.
Definition ComplianceSupervisionExchangeType : AuditLogRecordType := 68.
Definition CustomerKeyServiceEncryptionType : AuditLogRecordType := 69.
Definition OfficeNativeType : AuditLogRecordType := 70.
Definition MipAutoLabelSharePointItemType : AuditLogRecordType := 71.
Definition MipAutoLabelSharePointPolicyLocationType : AuditLogRecordType := 72.
Definition MicrosoftTeamsShiftsType : AuditLogRecordType := 73.
Definition MipAutoLabelExchangeItemType : AuditLogRecordType := 75.
Definition CortanaBriefingType : AuditLogRecordType := 76.
Definition WDATPAlertsType : AuditLogRecordType := 78.
Definition SensitivityLabelPolicyMatchType : AuditLogRecordType := 82.
Definition SensitivityLabelActionType : AuditLogRecordType := 83.
Definition SensitivityLabeledFileActionType : AuditLogRecordType := 84.
Definition AttackSimType : AuditLogRecordType := 85.
Definition AirManualInvestigationType : AuditLogRecordType := 86.
Definition SecurityComplianceRBACType : AuditLogRecordType := 87.
Definition UserTrainingType : AuditLogRecordType := 88.
Definition AirAdminActionInvestigationType : AuditLogRecordType := 89.
Definition MSTICType : AuditLogRecordType := 90.
Definition PhysicalBadgingSignalType : AuditLogRecordType := 91.
Definition AipDiscoverType : AuditLogRecordType := 93.
Definition AipSensitivityLabelActionType : AuditLogRecordType := 94.
Definition AipProtectionActionType : AuditLogRecordType := 95.
Definition AipFileDeletedType : AuditLogRecordType := 96.
Definition AipHeartBeatType : AuditLogRecordType := 97.
Definition MCASAlertsType : AuditLogRecordType := 98.
Definition OnPremisesFileShareScannerDlpType : AuditLogRecordType := 99.
Definition OnPremisesSharePointScannerDlpType : AuditLogRecordType := 100.
Definition ExchangeSearchType : AuditLogRecordType := 101.
Definition SharePointSearchType : AuditLogRecordType := 102.
Definition PrivacyInsightsType : AuditLogRecordType := 103.
Definition MyAnalyticsSettingsType : AuditLogRecordType := 105.
Definition SecurityComplianceUserChangeType : AuditLogRecordType := 106.
Definition ComplianceDLPExchangeClassificationType : AuditLogRecordType := 107.
Definition MipExactDataMatchType : AuditLogRecordType := 109.
Definition MS365DCustomDetectionType : AuditLogRecordType := 113.
Definition CoreReportingSettingsType : AuditLogRecordType := 147.
Definition ComplianceConnectorType : AuditLogRecordType := 148.
Definition OMEPortalType : AuditLogRecordType := 154.
Definition DataShareOperationType : AuditLogRecordType := 174.
Definition EduDataLakeDownloadOperationType : AuditLogRecordType := 181.
Definition MicrosoftGraphDataConnectOperationType : AuditLogRecordType := 183.
Definition PowerPagesSiteType : AuditLogRecordType := 186.
Definition PlannerPlanType : AuditLogRecordType := 188.
Definition PlannerCopyPlanType : AuditLogRecordType := 189.
Definition PlannerTaskType : AuditLogRecordType := 190.
Definition PlannerRosterType : AuditLogRecordType := 191.
Definition PlannerPlanListType : AuditLogRecordType := 192.
Definition PlannerTaskListType : AuditLogRecordType := 193.
Definition PlannerTenantSettingsType : AuditLogRecordType := 194.
Definition ProjectForTheWebProjectType : AuditLogRecordType := 195.
Definition ProjectForTheWebTaskType : AuditLogRecordType := 196.
Definition ProjectForTheWebRoadmapType : AuditLogRecordType := 197.
Definition ProjectForTheWebRoadmapItemType : AuditLogRecordType := 198.
Definition ProjectForTheWebProjectSettingsType : AuditLogRecordType := 199.
Definition ProjectForTheWebRoadmapSettingsType : AuditLogRecordType := 200.
Definition MicrosoftTodoAuditType : AuditLogRecordType := 202.
Definition VivaGoalsType : AuditLogRecordType := 216.
Definition MicrosoftGraphDataConnectConsentType : AuditLogRecordType := 217.
Definition AttackSimAdminType : AuditLogRecordType := 218.
Definition TeamsUpdatesType : AuditLogRecordType := 230.
Definition DefenderExpertsforXDRAdminType : AuditLogRecordType := 237.
Definition PlannerRosterSensitivityLabelType : AuditLogRecordType := 231.
Definition VfamCreatePolicyType : AuditLogRecordType := 251.
Definition VfamUpdatePolicyType : AuditLogRecordType := 252.
Definition VfamDeletePolicyType : AuditLogRecordType := 253.
Definition CopilotInteractionType : AuditLogRecordType := 261.
End RecordTypes.

(** The map literal of [AuditLogRecordType.String], entry by entry. *)
Definition String_literals : list (AuditLogRecordType * string) :=
  [ (RecordTypes.ExchangeAdminType, "ExchangeAdmin"%string);
    (RecordTypes.ExchangeItemType, "ExchangeItem"%string);
    (RecordTypes.ExchangeItemGroupType, "ExchangeItemGroup"%string);
    (RecordTypes.SharePointType, "SharePoint"%string);
    (RecordTypes.SharePointFileOperationType, "SharePointFileOperation"%string);
    (RecordTypes.OneDriveType, "OneDrive"%string);
    (RecordTypes.AzureActiveDirectoryType, "AzureActiveDirectory"%string);
    (RecordTypes.AzureActiveDirectoryAccountLogonType, "AzureActiveDirectoryAccountLogon"%string);
    (RecordTypes.DataCenterSecurityCmdletType, "DataCenterSecurityCmdlet"%string);
    (RecordTypes.ComplianceDLPSharePointType, "ComplianceDLPSharePoint"%string);
    (RecordTypes.ComplianceDLPExchangeType, "ComplianceDLPExchange"%string);
    (RecordTypes.SharePointSharingOperationType, "SharePointSharingOperation"%string);
    (RecordTypes.AzureActiveDirectoryStsLogonType, "AzureActiveDirectoryStsLogon"%string);
    (RecordTypes.SkypeForBusinessPSTNUsageType, "SkypeForBusinessPSTNUsage"%string);
    (RecordTypes.SkypeForBusinessUsersBlockedType, "SkypeForBusinessUsersBlocked"%string);
    (RecordTypes.SecurityComplianceCenterEOPCmdletType, "SecurityComplianceCenterEOPCmdlet"%string);
    (RecordTypes.ExchangeAggregatedOperationType, "ExchangeAggregatedOperation"%string);
    (RecordTypes.PowerBIAuditType, "PowerBIAudit"%string);
    (RecordTypes.CRMType, "CRM"%string);
    (RecordTypes.YammerType, "Yammer"%string);
    (RecordTypes.SkypeForBusinessCmdletsType, "SkypeForBusinessCmdlets"%string);
    (RecordTypes.DiscoveryType, "Discovery"%string);
    (RecordTypes.MicrosoftTeamsType, "MicrosoftTeams"%string);
    (RecordTypes.ThreatIntelligenceType, "ThreatIntelligence"%string);
    (RecordTypes.MailSubmissionType, "MailSubmission"%string);
    (RecordTypes.MicrosoftFlowType, "MicrosoftFlow"%string);
    (RecordTypes.AeDType, "AeD"%string);
    (RecordTypes.MicrosoftStreamType, "MicrosoftStream"%string);
    (RecordTypes.ComplianceDLPSharePointClassificationType, "ComplianceDLPSharePointClassification"%string);
    (RecordTypes.ThreatFinderType, "ThreatFinder"%string);
    (RecordTypes.ProjectType, "Project"%string);
    (RecordTypes.SharePointListOperationType, "SharePointListOperation"%string);
    (RecordTypes.SharePointCommentOperationType, "SharePointCommentOperation"%string);
    (RecordTypes.DataGovernanceType, "DataGovernance"%string);
    (RecordTypes.KaizalaType, "Kaizala"%string);
    (RecordTypes.SecurityComplianceAlertsType, "SecurityComplianceAlerts"%string);
    (RecordTypes.ThreatIntelligenceUrlType, "ThreatIntelligenceUrl"%string);
    (RecordTypes.SecurityComplianceInsightsType, "SecurityComplianceInsights"%string);
    (RecordTypes.MIPLabelType, "MIPLabel"%string);
    (RecordTypes.WorkplaceAnalyticsType, "WorkplaceAnalytics"%string);
    (RecordTypes.PowerAppsAppType, "PowerAppsApp"%string);
    (RecordTypes.PowerAppsPlanType, "PowerAppsPlan"%string);
    (RecordTypes.ThreatIntelligenceAtpContentType, "ThreatIntelligenceAtpContent"%string);
    (RecordTypes.LabelContentExplorerType, "LabelContentExplorer"%string);
    (RecordTypes.TeamsHealthcareType, "TeamsHealthcare"%string);
    (RecordTypes.ExchangeItemAggregatedType, "ExchangeItemAggregated"%string);
    (RecordTypes.HygieneEventType, "HygieneEvent"%string);
    (RecordTypes.DataInsightsRestApiAuditType, "DataInsightsRestApiAudit"%string);
    (RecordTypes.InformationBarrierPolicyApplicationType, "InformationBarrierPolicyApplication"%string);
    (RecordTypes.SharePointListItemOperationType, "SharePointListItemOperation"%string);
    (RecordTypes.SharePointContentTypeOperationType, "SharePointContentTypeOperation"%string);
    (RecordTypes.SharePointFieldOperationType, "SharePointFieldOperation"%string);
    (RecordTypes.MicrosoftTeamsAdminType, "MicrosoftTeamsAdmin"%string);
    (RecordTypes.HRSignalType, "HRSignal"%string);
    (RecordTypes.MicrosoftTeamsDeviceType, "MicrosoftTeamsDevice"%string);
    (RecordTypes.MicrosoftTeamsAnalyticsType, "MicrosoftTeamsAnalytics"%string);
    (RecordTypes.InformationWorkerProtectionType, "InformationWorkerProtection"%string);
    (RecordTypes.CampaignType, "Campaign"%string);
    (RecordTypes.DLPEndpointType, "DLPEndpoint"%string);
    (RecordTypes.AirInvestigationType, "AirInvestigation"%string);
    (RecordTypes.QuarantineType, "Quarantine"%string);
    (RecordTypes.MicrosoftFormsType, "MicrosoftForms"%string);
    (RecordTypes.ApplicationAuditType, "ApplicationAudit"%string);
    (RecordTypes.ComplianceSupervisionExchangeType, "ComplianceSupervisionExchange"%string);
    (RecordTypes.CustomerKeyServiceEncryptionType, "CustomerKeyServiceEncryption"%string);
    (RecordTypes.OfficeNativeType, "OfficeNative"%string);
    (RecordTypes.MipAutoLabelSharePointItemType, "MipAutoLabelSharePointItem"%string);
    (RecordTypes.MipAutoLabelSharePointPolicyLocationType, "MipAutoLabelSharePointPolicyLocation"%string);
    (RecordTypes.MicrosoftTeamsShiftsType, "MicrosoftTeamsShifts"%string);
    (RecordTypes.MipAutoLabelExchangeItemType, "MipAutoLabelExchangeItem"%string);
    (RecordTypes.CortanaBriefingType, "CortanaBriefing"%string);
    (RecordTypes.WDATPAlertsType, "WDATPAlerts"%string);
    (RecordTypes.SensitivityLabelPolicyMatchType, "SensitivityLabelPolicyMatch"%string);
    (RecordTypes.SensitivityLabelActionType, "SensitivityLabelAction"%string);
    (RecordTypes.SensitivityLabeledFileActionType, "SensitivityLabeledFileAction"%string);
    (RecordTypes.AttackSimType, "AttackSim"%string);
    (RecordTypes.AirManualInvestigationType, "AirManualInvestigation"%string);
    (RecordTypes.SecurityComplianceRBACType, "SecurityComplianceRBAC"%string);
    (RecordTypes.UserTrainingType, "UserTraining"%string);
    (RecordTypes.AirAdminActionInvestigationType, "AirAdminActionInvestigation"%string);
    (RecordTypes.MSTICType, "MSTIC"%string);
    (RecordTypes.PhysicalBadgingSignalType, "PhysicalBadgingSignal"%string);
    (RecordTypes.AipDiscoverType, "AipDiscover"%string);
    (RecordTypes.AipSensitivityLabelActionType, "AipSensitivityLabelAction"%string);
    (RecordTypes.AipProtectionActionType, "AipProtectionAction"%string);
    (RecordTypes.AipFileDeletedType, "AipFileDeleted"%string);
    (RecordTypes.AipHeartBeatType, "AipHeartBeat"%string);
    (RecordTypes.MCASAlertsType, "MCASAlerts"%string);
    (RecordTypes.OnPremisesFileShareScannerDlpType, "OnPremisesFileShareScannerDlp"%string);
    (RecordTypes.OnPremisesSharePointScannerDlpType, "OnPremisesSharePointScannerDlp"%string);
    (RecordTypes.ExchangeSearchType, "ExchangeSearch"%string);
    (RecordTypes.SharePointSearchType, "SharePointSearch"%string);
    (RecordTypes.PrivacyInsightsType, "PrivacyInsights"%string);
    (RecordTypes.MyAnalyticsSettingsType, "MyAnalyticsSettings"%string);
    (RecordTypes.SecurityComplianceUserChangeType, "SecurityComplianceUserChange"%string);
    (RecordTypes.ComplianceDLPExchangeClassificationType, "ComplianceDLPExchangeClassification"%string);
    (RecordTypes.MipExactDataMatchType, "MipExactDataMatch"%string);
    (RecordTypes.MS365DCustomDetectionType, "MS365DCustomDetection"%string);
    (RecordTypes.CoreReportingSettingsType, "CoreReportingSettings"%string);
    (RecordTypes.ComplianceConnectorType, "ComplianceConnector"%string);
    (RecordTypes.OMEPortalType, "OMEPortal"%string);
    (RecordTypes.DataShareOperationType, "DataShareOperation"%string);
    (RecordTypes.EduDataLakeDownloadOperationType, "EduDataLakeDownloadOperation"%string);
    (RecordTypes.MicrosoftGraphDataConnectOperationType, "MicrosoftGraphDataConnectOperation"%string);
    (RecordTypes.PowerPagesSiteType, "PowerPagesSite"%string);
    (RecordTypes.PlannerPlanType, "PlannerPlan"%string);
    (RecordTypes.PlannerCopyPlanType, "PlannerCopyPlan"%string);
    (RecordTypes.PlannerTaskType, "PlannerTask"%string);
    (RecordTypes.PlannerRosterType, "PlannerRoster"%string);
    (RecordTypes.PlannerPlanListType, "PlannerPlanList"%string);
    (RecordTypes.PlannerTaskListType, "PlannerTaskList"%string);
    (RecordTypes.PlannerTenantSettingsType, "PlannerTenantSettings"%string);
    (RecordTypes.ProjectForTheWebProjectType, "ProjectForTheWebProject"%string);
    (RecordTypes.ProjectForTheWebTaskType, "ProjectForTheWebTask"%string);
    (RecordTypes.ProjectForTheWebRoadmapType, "ProjectForTheWebRoadmap"%string);
    (RecordTypes.ProjectForTheWebRoadmapItemType, "ProjectForTheWebRoadmapItem"%string);
    (RecordTypes.ProjectForTheWebProjectSettingsType, "ProjectForTheWebProjectSettings"%string);
    (RecordTypes.ProjectForTheWebRoadmapSettingsType, "ProjectForTheWebRoadmapSettings"%string);
    (RecordTypes.MicrosoftTodoAuditType, "MicrosoftTodoAudit"%string);
    (RecordTypes.VivaGoalsType, "VivaGoals"%string);
    (RecordTypes.MicrosoftGraphDataConnectConsentType, "MicrosoftGraphDataConnectConsent"%string);
    (RecordTypes.AttackSimAdminType, "AttackSimAdmin"%string);
    (RecordTypes.TeamsUpdatesType, "TeamsUpdates"%string);
    (RecordTypes.DefenderExpertsforXDRAdminType, "DefenderExpertsforXDRAdmin"%string);
    (RecordTypes.PlannerRosterSensitivityLabelType, "PlannerRosterSensitivityLabel"%string);
    (RecordTypes.VfamCreatePolicyType, "VfamCreatePolicy"%string);
    (RecordTypes.VfamUpdatePolicyType, "VfamUpdatePolicy"%string);
    (RecordTypes.VfamDeletePolicyType, "VfamDeletePolicy"%string);
    (RecordTypes.CopilotInteractionType, "CopilotInteraction"%string) ].

(** [t.String()]: the name in the table, the empty string for a code that
    has none. *)
Definition AuditLogRecordType_String (t : AuditLogRecordType) : string :=
  default EmptyString ((list_to_map String_literals : gmap Z string) !! t).

(** The package-level map [literals], entry by entry. *)
Definition literals_entries : list (string * AuditLogRecordType) :=
  [ ("ExchangeAdmin"%string, RecordTypes.ExchangeAdminType);
    ("ExchangeItem"%string, RecordTypes.ExchangeItemType);
    ("ExchangeItemGroup"%string, RecordTypes.ExchangeItemGroupType);
    ("SharePoint"%string, RecordTypes.SharePointType);
    ("SharePointFileOperation"%string, RecordTypes.SharePointFileOperationType);
    ("OneDrive"%string, RecordTypes.OneDriveType);
    ("AzureActiveDirectory"%string, RecordTypes.AzureActiveDirectoryType);
    ("AzureActiveDirectoryAccountLogon"%string, RecordTypes.AzureActiveDirectoryAccountLogonType);
    ("DataCenterSecurityCmdlet"%string, RecordTypes.DataCenterSecurityCmdletType);
    ("ComplianceDLPSharePoint"%string, RecordTypes.ComplianceDLPSharePointType);
    ("ComplianceDLPExchange"%string, RecordTypes.ComplianceDLPExchangeType);
    ("SharePointSharingOperation"%string, RecordTypes.SharePointSharingOperationType);
    ("AzureActiveDirectoryStsLogon"%string, RecordTypes.AzureActiveDirectoryStsLogonType);
    ("SkypeForBusinessPSTNUsage"%string, RecordTypes.SkypeForBusinessPSTNUsageType);
    ("SkypeForBusinessUsersBlocked"%string, RecordTypes.SkypeForBusinessUsersBlockedType);
    ("SecurityComplianceCenterEOPCmdlet"%string, RecordTypes.SecurityComplianceCenterEOPCmdletType);
    ("ExchangeAggregatedOperation"%string, RecordTypes.ExchangeAggregatedOperationType);
    ("PowerBIAudit"%string, RecordTypes.PowerBIAuditType);
    ("CRM"%string, RecordTypes.CRMType);
    ("Yammer"%string, RecordTypes.YammerType);
    ("SkypeForBusinessCmdlets"%string, RecordTypes.SkypeForBusinessCmdletsType);
    ("Discovery"%string, RecordTypes.DiscoveryType);
    ("MicrosoftTeams"%string, RecordTypes.MicrosoftTeamsType);
    ("ThreatIntelligence"%string, RecordTypes.ThreatIntelligenceType);
    ("MailSubmission"%string, RecordTypes.MailSubmissionType);
    ("MicrosoftFlow"%string, RecordTypes.MicrosoftFlowType);
    ("AeD"%string, RecordTypes.AeDType);
    ("MicrosoftStream"%string, RecordTypes.MicrosoftStreamType);
    ("ComplianceDLPSharePointClassification"%string, RecordTypes.ComplianceDLPSharePointClassificationType);
    ("ThreatFinder"%string, RecordTypes.ThreatFinderType);
    ("Project"%string, RecordTypes.ProjectType);
    ("SharePointListOperation"%string, RecordTypes.SharePointListOperationType);
    ("SharePointCommentOperation"%string, RecordTypes.SharePointCommentOperationType);
    ("DataGovernance"%string, RecordTypes.DataGovernanceType);
    ("Kaizala"%string, RecordTypes.KaizalaType);
    ("SecurityComplianceAlerts"%string, RecordTypes.SecurityComplianceAlertsType);
    ("ThreatIntelligenceUrl"%string, RecordTypes.ThreatIntelligenceUrlType);
    ("SecurityComplianceInsights"%string, RecordTypes.SecurityComplianceInsightsType);
    ("MIPLabel"%string, RecordTypes.MIPLabelType);
    ("WorkplaceAnalytics"%string, RecordTypes.WorkplaceAnalyticsType);
    ("PowerAppsApp"%string, RecordTypes.PowerAppsAppType);
    ("PowerAppsPlan"%string, RecordTypes.PowerAppsPlanType);
    ("ThreatIntelligenceAtpContent"%string, RecordTypes.ThreatIntelligenceAtpContentType);
    ("LabelContentExplorer"%string, RecordTypes.LabelContentExplorerType);
    ("TeamsHealthcare"%string, RecordTypes.TeamsHealthcareType);
    ("ExchangeItemAggregated"%string, RecordTypes.ExchangeItemAggregatedType);
    ("HygieneEvent"%string, RecordTypes.HygieneEventType);
    ("DataInsightsRestApiAudit"%string, RecordTypes.DataInsightsRestApiAuditType);
    ("InformationBarrierPolicyApplication"%string, RecordTypes.InformationBarrierPolicyApplicationType);
    ("SharePointListItemOperation"%string, RecordTypes.SharePointListItemOperationType);
    ("SharePointContentTypeOperation"%string, RecordTypes.SharePointContentTypeOperationType);
    ("SharePointFieldOperation"%string, RecordTypes.SharePointFieldOperationType);
    ("MicrosoftTeamsAdmin"%string, RecordTypes.MicrosoftTeamsAdminType);
    ("HRSignal"%string, RecordTypes.HRSignalType);
    ("MicrosoftTeamsDevice"%string, RecordTypes.MicrosoftTeamsDeviceType);
    ("MicrosoftTeamsAnalytics"%string, RecordTypes.MicrosoftTeamsAnalyticsType);
    ("InformationWorkerProtection"%string, RecordTypes.InformationWorkerProtectionType);
    ("Campaign"%string, RecordTypes.CampaignType);
    ("DLPEndpoint"%string, RecordTypes.DLPEndpointType);
    ("AirInvestigation"%string, RecordTypes.AirInvestigationType);
    ("Quarantine"%string, RecordTypes.QuarantineType);
    ("MicrosoftForms"%string, RecordTypes.MicrosoftFormsType);
    ("ApplicationAudit"%string, RecordTypes.ApplicationAuditType);
    ("ComplianceSupervisionExchange"%string, RecordTypes.ComplianceSupervisionExchangeType);
    ("CustomerKeyServiceEncryption"%string, RecordTypes.CustomerKeyServiceEncryptionType);
    ("OfficeNative"%string, RecordTypes.OfficeNativeType);
    ("MipAutoLabelSharePointItem"%string, RecordTypes.MipAutoLabelSharePointItemType);
    ("MipAutoLabelSharePointPolicyLocation"%string, RecordTypes.MipAutoLabelSharePointPolicyLocationType);
    ("MicrosoftTeamsShifts"%string, RecordTypes.MicrosoftTeamsShiftsType);
    ("MipAutoLabelExchangeItem"%string, RecordTypes.MipAutoLabelExchangeItemType);
    ("CortanaBriefing"%string, RecordTypes.CortanaBriefingType);
    ("WDATPAlerts"%string, RecordTypes.WDATPAlertsType);
    ("SensitivityLabelPolicyMatch"%string, RecordTypes.SensitivityLabelPolicyMatchType);
    ("SensitivityLabelAction"%string, RecordTypes.SensitivityLabelActionType);
    ("SensitivityLabeledFileAction"%string, RecordTypes.SensitivityLabeledFileActionType);
    ("AttackSim"%string, RecordTypes.AttackSimType);
    ("AirManualInvestigation"%string, RecordTypes.AirManualInvestigationType);
    ("SecurityComplianceRBAC"%string, RecordTypes.SecurityComplianceRBACType);
    ("UserTraining"%string, RecordTypes.UserTrainingType);
    ("AirAdminActionInvestigation"%string, RecordTypes.AirAdminActionInvestigationType);
    ("MSTIC"%string, RecordTypes.MSTICType);
    ("PhysicalBadgingSignal"%string, RecordTypes.PhysicalBadgingSignalType);
    ("AipDiscover"%string, RecordTypes.AipDiscoverType);
    ("AipSensitivityLabelAction"%string, RecordTypes.AipSensitivityLabelActionType);
    ("AipProtectionAction"%string, RecordTypes.AipProtectionActionType);
    ("AipFileDeleted"%string, RecordTypes.AipFileDeletedType);
    ("AipHeartBeat"%string, RecordTypes.AipHeartBeatType);
    ("MCASAlerts"%string, RecordTypes.MCASAlertsType);
    ("OnPremisesFileShareScannerDlp"%string, RecordTypes.OnPremisesFileShareScannerDlpType);
    ("OnPremisesSharePointScannerDlp"%string, RecordTypes.OnPremisesSharePointScannerDlpType);
    ("ExchangeSearch"%string, RecordTypes.ExchangeSearchType);
    ("SharePointSearch"%string, RecordTypes.SharePointSearchType);
    ("PrivacyInsights"%string, RecordTypes.PrivacyInsightsType);
    ("MyAnalyticsSettings"%string, RecordTypes.MyAnalyticsSettingsType);
    ("SecurityComplianceUserChange"%string, RecordTypes.SecurityComplianceUserChangeType);
    ("ComplianceDLPExchangeClassification"%string, RecordTypes.ComplianceDLPExchangeClassificationType);
    ("MipExactDataMatch"%string, RecordTypes.MipExactDataMatchType);
    ("MS365DCustomDetection"%string, RecordTypes.MS365DCustomDetectionType);
    ("CoreReportingSettings"%string, RecordTypes.CoreReportingSettingsType);
    ("ComplianceConnector"%string, RecordTypes.ComplianceConnectorType);
    ("OMEPortal"%string, RecordTypes.OMEPortalType);
    ("DataShareOperation"%string, RecordTypes.DataShareOperationType);
    ("EduDataLakeDownloadOperation"%string, RecordTypes.EduDataLakeDownloadOperationType);
    ("MicrosoftGraphDataConnectOperation"%string, RecordTypes.MicrosoftGraphDataConnectOperationType);
    ("PowerPagesSite"%string, RecordTypes.PowerPagesSiteType);
    ("PlannerPlan"%string, RecordTypes.PlannerPlanType);
    ("PlannerCopyPlan"%string, RecordTypes.PlannerCopyPlanType);
    ("PlannerTask"%string, RecordTypes.PlannerTaskType);
    ("PlannerRoster"%string, RecordTypes.PlannerRosterType);
    ("PlannerPlanList"%string, RecordTypes.PlannerPlanListType);
    ("PlannerTaskList"%string, RecordTypes.PlannerTaskListType);
    ("PlannerTenantSettings"%string, RecordTypes.PlannerTenantSettingsType);
    ("ProjectForTheWebProject"%string, RecordTypes.ProjectForTheWebProjectType);
    ("ProjectForTheWebTask"%string, RecordTypes.ProjectForTheWebTaskType);
    ("ProjectForTheWebRoadmap"%string, RecordTypes.ProjectForTheWebRoadmapType);
    ("ProjectForTheWebRoadmapItem"%string, RecordTypes.ProjectForTheWebRoadmapItemType);
    ("ProjectForTheWebProjectSettings"%string, RecordTypes.ProjectForTheWebProjectSettingsType);
    ("ProjectForTheWebRoadmapSettings"%string, RecordTypes.ProjectForTheWebRoadmapSettingsType);
    ("MicrosoftTodoAudit"%string, RecordTypes.MicrosoftTodoAuditType);
    ("VivaGoals"%string, RecordTypes.VivaGoalsType);
    ("MicrosoftGraphDataConnectConsent"%string, RecordTypes.MicrosoftGraphDataConnectConsentType);
    ("AttackSimAdmin"%string, RecordTypes.AttackSimAdminType);
    ("TeamsUpdates"%string, RecordTypes.TeamsUpdatesType);
    ("DefenderExpertsforXDRAdmin"%string, RecordTypes.DefenderExpertsforXDRAdminType);
    ("PlannerRosterSensitivityLabel"%string, RecordTypes.PlannerRosterSensitivityLabelType);
    ("VfamCreatePolicy"%string, RecordTypes.VfamCreatePolicyType);
    ("VfamUpdatePolicy"%string, RecordTypes.VfamUpdatePolicyType);
    ("VfamDeletePolicy"%string, RecordTypes.VfamDeletePolicyType);
    ("CopilotInteraction"%string, RecordTypes.CopilotInteractionType) ].

Definition literals : gmap string AuditLogRecordType := list_to_map literals_entries.

(** [GetRecordType]. *)
Definition GetRecordType (s : string) : result AuditLogRecordType :=
  match literals !! s with
  | Some t => Ok t
  | None => Err ("record type " ++ s ++ " invalid")%string
  end.



(** The constants of the [UserType] enumeration, an [int] numbered by
    [iota]. *)
Module UserTypes.
Definition Regular : Z := 0.
Definition Reserved : Z := 1.
Definition Admin : Z := 2.
Definition DcAdmin : Z := 3.
Definition System : Z := 4.
Definition Application : Z := 5.
Definition ServicePrincipal : Z := 6.
Definition CustomPolicy : Z := 7.
Definition SystemPolicy : Z := 8.
End UserTypes.

(** The map literal of [UserType.String]. *)
Definition UserType_literals : list (Z * string) :=
  [ (UserTypes.Regular, "Regular"%string);
    (UserTypes.Reserved, "Reserved"%string);
    (UserTypes.Admin, "Admin"%string);
    (UserTypes.DcAdmin, "DcAdmin"%string);
    (UserTypes.System, "System"%string);
    (UserTypes.Application, "Application"%string);
    (UserTypes.ServicePrincipal, "ServicePrincipal"%string);
    (UserTypes.CustomPolicy, "CustomPolicy"%string);
    (UserTypes.SystemPolicy, "SystemPolicy"%string) ].

Definition UserType_String (t : Z) : string :=
  default EmptyString ((list_to_map UserType_literals : gmap Z string) !! t).

(** [ContentType.String], on the values of the enumeration. *)
Definition ContentType_String (c : ContentType) : string :=
  match c with
  | AuditAzureActiveDirectory => "Audit.AzureActiveDirectory"
  | AuditExchange => "Audit.Exchange"
  | AuditSharePoint => "Audit.SharePoint"
  | AuditGeneral => "Audit.General"
  | DLPAll => "DLP.All"
  end%string.

(** [GetContentTypes]. Go ranges over a map in an order it does not fix:
    [entries] is the order in which the range visits [contentTypes]. *)
Definition GetContentTypes (entries : list (string * ContentType))
  : list ContentType :=
  foldl (fun result e => result ++ [e.2]) [] entries.

(** [ContentTypeValid]. *)
Definition ContentTypeValid (s : string) : bool :=
  match GetContentType s with
  | Err _ => false
  | Ok _ => true
  end.

#[global] Instance result_eq_dec {A : Type} `{EqDecision A} : EqDecision (result A).
Proof. solve_decision. Defined.

(** ** Further vocabulary *)


(** A request put on the bus at the tick [t] for a content type that [m] does
    not mark busy. *)
Definition freshRequest (t : Time) (m : gmap ContentType bool)
    (o : option ResourceRequest) : Prop :=
  exists ct, o = Some {| req_ContentType := Some ct; RequestTime := t |} /\
             m !! ct <> Some true.

(** The busy map [m'] keeps every entry of [m] and marks nothing busy that
    [m] does not. *)
Definition busy_extends (m m' : gmap ContentType bool) : Prop :=
  (forall ct b, m !! ct = Some b -> m' !! ct = Some b) /\
  (forall ct, m' !! ct = Some true -> m !! ct = Some true).

(** A verdict that calls nothing and adds no record. *)
Definition quietVerdict (v : verdict) : Prop :=
  verdictCalls v = [] /\ verdictRecords v = [].

(** Three ticks in a row with no fetcher running: the third finds room for
    one Resource only. *)
Definition sysE1b : System unit := (generatorTick (E := envE) t1202 sysE1).2.
Definition sysFull : System unit := (generatorTick (E := envE) t1205 sysE1b).2.

(** * Properties *)

(** ** Machine arithmetic *)

Lemma wrap64_small (z : Z) : minInt64 <= z <= maxInt64 -> wrap64 z = z.
Proof.
  unfold wrap64, minInt64, maxInt64. intros Hz.
  rewrite Z.mod_small; lia.
Qed.

Lemma durationOf_small (n unit : Z) :
  minInt64 <= n * unit <= maxInt64 -> durationOf n unit = n * unit.
Proof. apply wrap64_small. Qed.

Lemma Sub_small (t u : Time) : minInt64 <= t - u <= maxInt64 -> Sub t u = t - u.
Proof.
  unfold Sub. intros Hd. cbn zeta.
  destruct (Z.ltb_spec (t - u) minInt64); [lia|].
  destruct (Z.ltb_spec maxInt64 (t - u)); [lia|]. reflexivity.
Qed.

Lemma Sub_lt_Minute (t u : Time) : t - u < Minute -> Sub t u < Minute.
Proof.
  unfold Sub, minInt64, maxInt64, Minute, Second. cbn zeta. intros Hd.
  destruct (Z.ltb_spec (t - u) (- 2 ^ 63)); [lia|].
  destruct (Z.ltb_spec (2 ^ 63 - 1) (t - u)); lia.
Qed.

(** ** The state store *)

Lemma setLast_lookup (ct : ContentType) (t : Time) (m : gmap ContentType Time) :
  setLast ct t m !! ct = Some (storedMax (m !! ct) t).
Proof.
  unfold setLast, storedMax, Before.
  destruct (m !! ct) as [last|] eqn:Hm.
  - destruct (Z.ltb_spec last t).
    + rewrite lookup_insert_eq. f_equal. lia.
    + rewrite Hm. f_equal. lia.
  - apply lookup_insert_eq.
Qed.

Lemma setLast_lookup_ne (ct ct' : ContentType) (t : Time) (m : gmap ContentType Time) :
  ct <> ct' -> setLast ct t m !! ct' = m !! ct'.
Proof.
  intros Hne. unfold setLast.
  destruct (m !! ct) as [last|]; [destruct (Before last t)|];
    rewrite ?lookup_insert_ne; auto.
Qed.

Lemma watermark_le_refl (o : option Time) : watermark_le o o.
Proof. destruct o; simpl; [lia|exact I]. Qed.

Lemma watermark_le_trans (a b c : option Time) :
  watermark_le a b -> watermark_le b c -> watermark_le a c.
Proof. destruct a, b, c; simpl; try tauto; lia. Qed.

Lemma setLast_le (ct ct' : ContentType) (t : Time) (m : gmap ContentType Time) :
  watermark_le (m !! ct') (setLast ct t m !! ct').
Proof.
  destruct (decide (ct = ct')) as [<-|Hne].
  - rewrite setLast_lookup. destruct (m !! ct); simpl; [lia|exact I].
  - rewrite setLast_lookup_ne by assumption. apply watermark_le_refl.
Qed.

Lemma setLast_sequence_le (ops : list (ContentType * Time)) (ct' : ContentType)
    (m : gmap ContentType Time) :
  watermark_le (m !! ct') (foldl (fun m op => setLast op.1 op.2 m) m ops !! ct').
Proof.
  revert m. induction ops as [|[c t] ops IH]; intros m; simpl.
  - apply watermark_le_refl.
  - eapply watermark_le_trans; [apply (setLast_le c ct' t)|apply IH].
Qed.

(** C6. Either watermark setter, called with [t], leaves the maximum of the
    previous value and [t] in the store ([t] itself when nothing was stored),
    and through any sequence of such calls the value stored for any content
    type never decreases. *)
Theorem watermark_setters_store_max
    (s : SubscriptionWatcher) (ct : ContentType) (t : Time) :
  lastRequestTime (setLastRequestTime ct t s) !! ct
    = Some (storedMax (lastRequestTime s !! ct) t) /\
  lastContentCreated (setLastContentCreated ct t s) !! ct
    = Some (storedMax (lastContentCreated s !! ct) t) /\
  (forall (ops : list (ContentType * Time)) (ct' : ContentType),
      watermark_le
        (lastRequestTime s !! ct')
        (lastRequestTime
           (foldl (fun s op => setLastRequestTime op.1 op.2 s) s ops) !! ct')) /\
  (forall (ops : list (ContentType * Time)) (ct' : ContentType),
      watermark_le
        (lastContentCreated s !! ct')
        (lastContentCreated
           (foldl (fun s op => setLastContentCreated op.1 op.2 s) s ops) !! ct')).
Proof.
  split; [apply setLast_lookup|].
  split; [apply setLast_lookup|].
  split; intros ops ct'.
  - replace (lastRequestTime (foldl _ s ops))
      with (foldl (fun m op => setLast op.1 op.2 m) (lastRequestTime s) ops).
    + apply setLast_sequence_le.
    + revert s. induction ops as [|op ops IH]; intros s; simpl; [reflexivity|].
      rewrite <- IH. reflexivity.
  - replace (lastContentCreated (foldl _ s ops))
      with (foldl (fun m op => setLast op.1 op.2 m) (lastContentCreated s) ops).
    + apply setLast_sequence_le.
    + revert s. induction ops as [|op ops IH]; intros s; simpl; [reflexivity|].
      rewrite <- IH. reflexivity.
Qed.

(** ** Configuration validation *)

(** Where neither product overflows, the constructor accepts exactly the
    configurations within both bounds. *)
Lemma NewSubscriptionWatcher_bounds (conf : SubscriptionWatcherConfig) :
  - 153722867 <= LookBehindMinutes conf <= 153722867 ->
  - 9223372036 <= TickerIntervalSeconds conf <= 9223372036 ->
  (exists w, NewSubscriptionWatcher conf = Ok w) <->
  (0 < LookBehindMinutes conf <= 1440 /\ 0 < TickerIntervalSeconds conf <= 3600).
Proof.
  intros Hl Ht. unfold NewSubscriptionWatcher.
  rewrite !durationOf_small
    by (unfold minInt64, maxInt64, Minute, Second; lia).
  unfold Hour, Minute, Second. cbn zeta.
  destruct (Z.leb_spec (LookBehindMinutes conf * (60 * 1000000000)) 0).
  { split; [intros [w Hw]; discriminate|lia]. }
  destruct (Z.ltb_spec (24 * (60 * (60 * 1000000000)))
              (LookBehindMinutes conf * (60 * 1000000000))).
  { split; [intros [w Hw]; discriminate|lia]. }
  destruct (Z.leb_spec (TickerIntervalSeconds conf * 1000000000) 0).
  { split; [intros [w Hw]; discriminate|lia]. }
  destruct (Z.ltb_spec (60 * (60 * 1000000000))
              (TickerIntervalSeconds conf * 1000000000)).
  { split; [intros [w Hw]; discriminate|lia]. }
  split; [lia|eauto].
Qed.

(** C8. The look-behind is checked after its conversion to nanoseconds, an
    int64 product that wraps: 307445735 minutes, far above 1440, becomes
    about 26 seconds and the constructor returns a watcher. *)
Theorem NewSubscriptionWatcher_accepts_wrapped_lookBehind :
  let conf := {| LookBehindMinutes := 307445735; TickerIntervalSeconds := 1 |} in
  ~ (0 < LookBehindMinutes conf <= 1440) /\
  - 2 ^ 31 <= LookBehindMinutes conf < 2 ^ 31 /\
  durationOf (LookBehindMinutes conf) Minute = 26290448384 /\
  exists w, NewSubscriptionWatcher conf = Ok w.
Proof.
  cbn zeta. split; [simpl; lia|].
  split; [simpl; lia|].
  split; [reflexivity|].
  eexists. vm_compute. reflexivity.
Qed.

(** ** Window derivation *)

(** Whenever the stored request time is not at least a minute ahead of the
    tick, the window starts a look-behind before the tick. *)
Lemma fetchWindow_lookBehind (conf : SubscriptionWatcherConfig) (L R : Time) :
  L - R < Minute ->
  fetchWindow conf L R = (Add R (neg (durationOf (LookBehindMinutes conf) Minute)), R).
Proof.
  intros Hd. unfold fetchWindow. cbn zeta.
  pose proof (Sub_lt_Minute L R Hd) as Hs.
  destruct (Z.ltb_spec (Sub L R) Minute); [|lia].
  rewrite orb_true_r. reflexivity.
Qed.

(** The stored request time is the start of the window only when it lies
    between a minute and a day after the tick. *)
Lemma fetchWindow_stored (conf : SubscriptionWatcherConfig) (L R : Time) :
  L <> 0 -> Minute <= L - R <= intervalOneDay ->
  fetchWindow conf L R = (L, R).
Proof.
  intros Hz Hd. unfold fetchWindow. cbn zeta.
  rewrite Sub_small
    by (revert Hd; unfold intervalOneDay, Hour, Minute, Second, minInt64, maxInt64; lia).
  unfold IsZero. destruct (Z.eqb_spec L 0); [contradiction|].
  destruct (Z.ltb_spec (L - R) Minute); [lia|].
  destruct (Z.ltb_spec intervalOneDay (L - R)); [lia|]. reflexivity.
Qed.

(** C2. Scenario B: the previous listing was at 12:00 (L), the tick is at
    12:05 (R), the look-behind is 60 minutes. L is not zero, |L-R| is five
    minutes and L-R is below a day, yet Content.List is called with the window
    from 11:05, not from L. *)
Theorem fetch_window_ignores_stored_request_time :
  let L := getLastRequestTime AuditExchange watcherB in
  let R := t1205 in
  let r := SetRequest emptyResource AuditExchange R in
  L = t1200 /\ L <> 0 /\ Minute <= Z.abs (L - R) /\ L - R <= intervalOneDay /\
  calls (snd (fetch (E := envQuiet) AuditExchange (requestFor AuditExchange R) r
                (systemOf watcherB)))
    = [CallContentList AuditExchange t1105 R] /\
  t1105 <> L.
Proof.
  cbn zeta. repeat split; try (vm_compute; congruence).
Qed.

(** ** The generator *)

Section Generator.
Context {World : Type} `{E : Env World}.

(** What a non-blocking send does to the watcher. *)
Lemma sendResourceOrSkip_spec (r : Resource) (w : SubscriptionWatcher) :
  config (sendResourceOrSkip r w) = config w /\
  contentTypeBusy (sendResourceOrSkip r w) = contentTypeBusy w /\
  lastContentCreated (sendResourceOrSkip r w) = lastContentCreated w /\
  lastRequestTime (sendResourceOrSkip r w) = lastRequestTime w /\
  queue (sendResourceOrSkip r w)
    = queue w ++ (if decide (length (queue w) < contentTypeCount)%nat
                  then [r] else []).
Proof.
  unfold sendResourceOrSkip. case_decide; simpl; rewrite ?app_nil_r; auto.
Qed.

Lemma isBusy_spec (ct : ContentType) (w : SubscriptionWatcher) :
  config (isBusy ct w).2 = config w /\
  queue (isBusy ct w).2 = queue w /\
  lastContentCreated (isBusy ct w).2 = lastContentCreated w /\
  lastRequestTime (isBusy ct w).2 = lastRequestTime w.
Proof. unfold isBusy. destruct (contentTypeBusy w !! ct); simpl; auto. Qed.

Lemma generatorFrame_send (r0 r1 : Resource) (s : System World)
    (res : Resource * System World) :
  Response r1 = Response r0 ->
  Errors r0 `prefix_of` Errors r1 ->
  generatorFrame r1 (modifyW (sendResourceOrSkip r1) s).2 res ->
  generatorFrame r0 s res.
Proof.
  intros Hresp Herr (Hw & Hc & Ho & Hcf & Hlc & Hlr & Hr & He & added & Hq & Hall).
  destruct (sendResourceOrSkip_spec r1 (watcher s)) as (Scf & _ & Slc & Slr & Sq).
  simpl in *. unfold generatorFrame.
  rewrite Hw, Hc, Ho, Hcf, Hlc, Hlr, Hr, Scf, Slc, Slr, Hresp.
  repeat (split; [reflexivity|]).
  split; [etrans; eassumption|].
  rewrite Hq, Sq, <- app_assoc. eexists. split; [reflexivity|].
  apply Forall_app. split.
  - case_decide; constructor; auto.
  - eapply Forall_impl; [exact Hall|]. simpl. intros r [-> Hp].
    split; [assumption|etrans; eassumption].
Qed.

Lemma generatorFrame_isBusy (ct : ContentType) (r0 : Resource)
    (s : System World) (res : Resource * System World) :
  generatorFrame r0 (stateW (isBusy ct) s).2 res ->
  generatorFrame r0 s res.
Proof.
  unfold generatorFrame, stateW.
  destruct (isBusy_spec ct (watcher s)) as (Bcf & Bq & Blc & Blr).
  destruct (isBusy ct (watcher s)) as [busy w1]; simpl in *.
  rewrite Bcf, Bq, Blc, Blr. tauto.
Qed.

Lemma generatorLoop_frame (t : Time) (subscriptions : list Subscription) :
  forall (r0 : Resource) (s : System World),
    generatorFrame r0 s (generatorLoop t subscriptions r0 s).
Proof.
  induction subscriptions as [|sub rest IH]; intros r0 s; simpl.
  - unfold generatorFrame, ret. simpl. repeat (split; [reflexivity|]).
    exists []. rewrite app_nil_r. split; [reflexivity|constructor].
  - destruct (GetContentType (sub_ContentType sub)) as [ct|err].
    + apply (generatorFrame_isBusy ct). unfold bind at 1.
      destruct (stateW (isBusy ct) s) as [busy s1]; simpl.
      destruct busy; [apply IH|].
      unfold bind.
      eapply (generatorFrame_send r0 (SetRequest r0 ct t));
        [reflexivity|reflexivity|].
      apply IH.
    + unfold bind.
      eapply (generatorFrame_send r0 (AddError r0 err));
        [reflexivity|apply prefix_app_r; reflexivity|].
      apply IH.
Qed.

(** The loop over a concatenation is the loop over the first part followed
    by the loop over the second, on the same [resource] variable. *)
Lemma generatorLoop_app (t : Time) (xs ys : list Subscription) :
  forall (r0 : Resource) (s : System World),
    generatorLoop t (xs ++ ys) r0 s
    = generatorLoop t ys (generatorLoop t xs r0 s).1 (generatorLoop t xs r0 s).2.
Proof.
  induction xs as [|sub rest IH]; intros r0 s; simpl; [reflexivity|].
  destruct (GetContentType (sub_ContentType sub)) as [ct|err].
  - unfold bind at 1 3 5, stateW.
    destruct (isBusy ct (watcher s)) as [[] w1]; simpl.
    + apply IH.
    + unfold bind. simpl. apply IH.
  - unfold bind. simpl. apply IH.
Qed.

Lemma generatorLoop_error_last (t : Time) (xs : list Subscription)
    (bad : Subscription) (err : error) (r0 : Resource) (s : System World) :
  GetContentType (sub_ContentType bad) = Err err ->
  err ∈ Errors (generatorLoop t (xs ++ [bad]) r0 s).1.
Proof.
  intros Hbad. rewrite generatorLoop_app. simpl. rewrite Hbad.
  unfold bind, ret. simpl. set_solver.
Qed.

(** C10. When the content type of a subscription cannot be resolved, the
    error stays in the one [resource] variable of the tick: every Resource
    put on the bus for a later subscription of the same listing carries
    it, and a valid, non-busy subscription that follows directly is
    enqueued as that resource with its request set. *)
Theorem generator_carries_errors_forward
    (t : Time) (pre post : list Subscription) (bad : Subscription)
    (err : error) (r0 : Resource) (s : System World) :
  GetContentType (sub_ContentType bad) = Err err ->
  let mid := generatorLoop t (pre ++ [bad]) r0 s in
  let fin := generatorLoop t post mid.1 mid.2 in
  generatorLoop t (pre ++ bad :: post) r0 s = fin /\
  err ∈ Errors mid.1 /\
  (exists added,
      queue (watcher fin.2) = queue (watcher mid.2) ++ added /\
      forall r, r ∈ added -> Errors mid.1 `prefix_of` Errors r /\ err ∈ Errors r) /\
  (forall good rest ct,
      post = good :: rest ->
      GetContentType (sub_ContentType good) = Ok ct ->
      (isBusy ct (watcher mid.2)).1 = false ->
      (length (queue (watcher mid.2)) < contentTypeCount)%nat ->
      exists later,
        queue (watcher fin.2)
        = queue (watcher mid.2) ++ SetRequest mid.1 ct t :: later).
Proof.
  intros Hbad mid fin.
  assert (Hin : err ∈ Errors mid.1) by (apply generatorLoop_error_last; assumption).
  split.
  { subst fin mid. rewrite <- generatorLoop_app, <- app_assoc. reflexivity. }
  split; [exact Hin|]. split.
  - destruct (generatorLoop_frame t post mid.1 mid.2)
      as (_ & _ & _ & _ & _ & _ & _ & _ & added & Hq & Hall).
    exists added. split; [exact Hq|].
    intros r Hr.
    pose proof (proj1 (Forall_forall _ _) Hall r Hr) as [_ Hp].
    split; [exact Hp|].
    destruct Hp as [k ->]. set_solver.
  - intros good rest ct -> Hgood Hbusy Hroom. subst fin. simpl.
    rewrite Hgood. unfold bind at 1, stateW.
    destruct (isBusy_spec ct (watcher mid.2)) as (_ & Bq & _ & _).
    destruct (isBusy ct (watcher mid.2)) as [busy w1]; simpl in *. subst busy.
    unfold bind, modifyW. cbn iota beta.
    match goal with
    | |- context [generatorLoop t rest ?r ?s1] =>
        destruct (generatorLoop_frame t rest r s1)
          as (_ & _ & _ & _ & _ & _ & _ & _ & later & Hq & _)
    end.
    exists later. rewrite Hq. simpl.
    destruct (sendResourceOrSkip_spec (SetRequest mid.1 ct t) w1)
      as (_ & _ & _ & _ & ->).
    rewrite Bq. rewrite decide_True by assumption.
    rewrite <- app_assoc. reflexivity.
Qed.

(** C1. When the subscriptions cannot be listed, the tick puts on the bus
    (if it has room) a Resource made of the error alone; the fetcher that
    receives it dereferences the absent request and panics, in any state. *)
Theorem listing_failure_resource_panics
    (t : Time) (s : System World) (err : error) (w' : World) :
  Subscription_List (world s) = (Err err, w') ->
  (length (queue (watcher s)) < contentTypeCount)%nat ->
  let r := {| Request := None; Response := []; Errors := [err] |} in
  queue (watcher (generatorTick t s).2) = queue (watcher s) ++ [r] /\
  forall s' : System World, fetcherBody r s' = Panic.
Proof.
  intros Hlist Hroom r. split; [|reflexivity].
  unfold generatorTick, bind, remote. rewrite Hlist. simpl.
  destruct (sendResourceOrSkip_spec (AddError emptyResource err) (watcher s))
    as (_ & _ & _ & _ & ->).
  rewrite decide_True by assumption. reflexivity.
Qed.

End Generator.

Lemma listing_failure_resource_panics_witness :
  let r := {| Request := None; Response := [];
              Errors := ["subscriptions unavailable"%string] |} in
  queue (watcher (generatorTick (E := envDown) t1200 (systemOf watcherA)).2) = [r] /\
  forall s' : System unit, fetcherBody (E := envDown) r s' = Panic.
Proof.
  apply (@listing_failure_resource_panics unit envDown t1200 (systemOf watcherA)
           "subscriptions unavailable"%string tt).
  - reflexivity.
  - vm_compute. lia.
Defined.

Lemma generator_carries_errors_forward_witness :
  exists later,
    queue (watcher (generatorLoop t1200
                      [subscription "Audit.Unknown"; subscription "Audit.Exchange"]
                      emptyResource (systemOf watcherA)).2)
    = [ {| Request := None; Response := [];
           Errors := ["ContentType invalid"%string] |};
        {| Request := Some (requestFor AuditExchange t1200); Response := [];
           Errors := ["ContentType invalid"%string] |} ] ++ later.
Proof.
  destruct (@generator_carries_errors_forward unit t1200 []
              [subscription "Audit.Exchange"] (subscription "Audit.Unknown")
              "ContentType invalid"%string emptyResource (systemOf watcherA)
              eq_refl) as (Heq & _ & _ & Hgood).
  destruct (Hgood (subscription "Audit.Exchange") [] AuditExchange
              eq_refl eq_refl eq_refl) as [later Hq].
  - vm_compute. lia.
  - exists later. simpl app at 1 in Heq. rewrite Heq. exact Hq.
Defined.

(** ** The fetcher *)

Section Fetcher.
Context {World : Type} `{E : Env World}.

(** The loop over the descriptors against its description by verdicts: what
    it returns, what it calls, and what it changes in the system. *)
Lemma fetchContent_verdicts (ct : ContentType) (lastCreated : Time)
    (content : list Content) :
  forall (r : Resource) (records : list AuditRecord) (s : System World),
    let res := fetchContent ct lastCreated content r records s in
    let vw := verdicts lastCreated content (world s) in
    Request res.1.1 = Request r /\
    Response res.1.1 = Response r /\
    Errors res.1.1 = Errors r ++ flat_map verdictErrors vw.1 /\
    res.1.2 = records ++ flat_map verdictRecords vw.1 /\
    world res.2 = vw.2 /\
    calls res.2 = calls s ++ flat_map verdictCalls vw.1 /\
    out res.2 = out s /\
    config (watcher res.2) = config (watcher s) /\
    queue (watcher res.2) = queue (watcher s) /\
    contentTypeBusy (watcher res.2) = contentTypeBusy (watcher s) /\
    lastRequestTime (watcher res.2) = lastRequestTime (watcher s) /\
    lastContentCreated (watcher res.2)
      = foldl (verdictWatermark ct) (lastContentCreated (watcher s)) vw.1.
Proof.
  induction content as [|c rest IH]; intros r records s; cbn zeta.
  - simpl. unfold ret. simpl. rewrite !app_nil_r. tauto.
  - simpl. destruct (ParseInLocation (ContentCreated c)) as [created|e].
    + unfold After. rewrite <- Z.leb_antisym.
      destruct (created <=? lastCreated).
      * apply IH.
      * unfold bind, modifyW, remote. simpl.
        destruct (Audit_List (ContentID c) (world s)) as [listed w1]. simpl.
        destruct listed as [audits|e].
        -- match goal with
           | |- context [fetchContent ct lastCreated rest r ?recs ?s1] =>
               specialize (IH r recs s1)
           end.
           cbn zeta in IH. simpl in IH. simpl.
           destruct IH as (H1 & H2 & H3 & H4 & H5 & H6 & H7 & H8 & H9 & H10 & H11 & H12).
           rewrite H1, H2, H3, H4, H5, H6, H7, H8, H9, H10, H11, H12.
           rewrite <- !app_assoc. tauto.
        -- match goal with
           | |- context [fetchContent ct lastCreated rest ?r1 records ?s1] =>
               specialize (IH r1 records s1)
           end.
           cbn zeta in IH. simpl in IH. simpl.
           destruct IH as (H1 & H2 & H3 & H4 & H5 & H6 & H7 & H8 & H9 & H10 & H11 & H12).
           rewrite H1, H2, H3, H4, H5, H6, H7, H8, H9, H10, H11, H12.
           rewrite <- !app_assoc. tauto.
    + specialize (IH (AddError r e) records s). cbn zeta in IH. simpl in IH.
      destruct IH as (H1 & H2 & H3 & H4 & H5 & H6 & H7 & H8 & H9 & H10 & H11 & H12).
      rewrite H1, H2, H3, H4, H5, H6, H7, H8, H9, H10, H11, H12.
      rewrite <- !app_assoc. tauto.
Qed.

(** Every descriptor gets the verdict that fits it. *)
Lemma verdicts_classified (lastCreated : Time) (content : list Content) :
  forall w : World,
    Forall2 (classified lastCreated) content (verdicts lastCreated content w).1.
Proof.
  induction content as [|c rest IH]; intros w; simpl; [constructor|].
  destruct (ParseInLocation (ContentCreated c)) as [created|e] eqn:Hp.
  - destruct (Z.leb_spec created lastCreated).
    + simpl. constructor; [|apply IH]. simpl. rewrite Hp. eauto.
    + simpl. constructor; [|apply IH]. simpl. rewrite Hp. auto.
  - simpl. constructor; [|apply IH]. simpl. exact Hp.
Qed.

(** The description by verdicts of a listing cut in two. *)
Lemma verdicts_app (lastCreated : Time) (xs ys : list Content) :
  forall w : World,
    verdicts lastCreated (xs ++ ys) w
    = ((verdicts lastCreated xs w).1
         ++ (verdicts lastCreated ys (verdicts lastCreated xs w).2).1,
       (verdicts lastCreated ys (verdicts lastCreated xs w).2).2).
Proof.
  induction xs as [|c rest IH]; intros w; simpl.
  - destruct (verdicts lastCreated ys w); reflexivity.
  - destruct (ParseInLocation (ContentCreated c)) as [created|e].
    + destruct (created <=? lastCreated); simpl; rewrite IH; reflexivity.
    + simpl. rewrite IH. reflexivity.
Qed.

Lemma foldl_verdictWatermark_le (ct ct' : ContentType) (vs : list verdict) :
  forall m : gmap ContentType Time,
    watermark_le (m !! ct') (foldl (verdictWatermark ct) m vs !! ct').
Proof.
  induction vs as [|v vs IH]; intros m; simpl; [apply watermark_le_refl|].
  eapply watermark_le_trans; [|apply IH].
  destruct v; simpl; try apply watermark_le_refl. apply setLast_le.
Qed.

Lemma foldl_verdictWatermark_ge (ct : ContentType) (vs : list verdict)
    (id : string) (created : Time) (listed : result (list AuditRecord)) :
  forall m : gmap ContentType Time,
    Audited id created listed ∈ vs ->
    created <= getLast ct (foldl (verdictWatermark ct) m vs).
Proof.
  induction vs as [|v vs IH]; intros m Hin; [inversion Hin|].
  apply elem_of_cons in Hin as [<-|Hin]; simpl.
  - pose proof (foldl_verdictWatermark_le ct ct vs (setLast ct created m)) as Hle.
    rewrite setLast_lookup in Hle. unfold getLast.
    destruct (foldl (verdictWatermark ct) (setLast ct created m) vs !! ct);
      simpl in Hle; [|contradiction].
    destruct (m !! ct); simpl in Hle; lia.
  - apply IH. exact Hin.
Qed.

End Fetcher.

Section FetchSteps.
Context {World : Type} `{E : Env World}.

(** A fetch whose listing fails. *)
Lemma fetch_failed (ct : ContentType) (rq : ResourceRequest) (r : Resource)
    (s : System World) (err : error) (w' : World) :
  Content_List ct (windowOf ct rq (watcher s)).1 (windowOf ct rq (watcher s)).2
    (world s) = (Err err, w') ->
  (fetch ct rq r s).2
  = {| watcher := unsetBusy ct (setBusy ct (watcher s));
       world := w';
       calls := calls s ++ [CallContentList ct (windowOf ct rq (watcher s)).1
                                               (windowOf ct rq (watcher s)).2];
       out := out s ++ [AddError r err] |}.
Proof.
  intros Hlist. unfold fetch, bind, modifyW, readW, remote, emit.
  cbn -[fetchWindow setBusy unsetBusy].
  change (fetchWindow (config (setBusy ct (watcher s)))
            (getLastRequestTime ct (setBusy ct (watcher s))) (RequestTime rq))
    with (windowOf ct rq (watcher s)).
  rewrite Hlist. reflexivity.
Qed.

(** A fetch whose listing succeeds. *)
Lemma fetch_listed (ct : ContentType) (rq : ResourceRequest) (r : Resource)
    (s : System World) (content : list Content) (w1 : World) :
  Content_List ct (windowOf ct rq (watcher s)).1 (windowOf ct rq (watcher s)).2
    (world s) = (Ok content, w1) ->
  let res := fetchContent ct (getLastContentCreated ct (watcher s)) content r []
               (afterListing ct rq s w1) in
  (fetch ct rq r s).2
  = {| watcher := unsetBusy ct (watcher res.2);
       world := world res.2;
       calls := calls res.2;
       out := out res.2 ++ [SetResponse res.1.1 res.1.2] |}.
Proof.
  intros Hlist. unfold fetch, bind, modifyW, readW, remote, emit.
  cbn -[fetchWindow setBusy unsetBusy setLastRequestTime fetchContent].
  change (fetchWindow (config (setBusy ct (watcher s)))
            (getLastRequestTime ct (setBusy ct (watcher s))) (RequestTime rq))
    with (windowOf ct rq (watcher s)).
  change (getLastContentCreated ct (setBusy ct (watcher s)))
    with (getLastContentCreated ct (watcher s)).
  rewrite Hlist. unfold afterListing. cbn -[setBusy unsetBusy setLastRequestTime fetchContent].
  destruct (fetchContent ct _ content r [] _) as [[r' records] s']. reflexivity.
Qed.

End FetchSteps.

(** ** Steps of the watcher *)

Section Steps.
Context {World : Type} `{E : Env World}.

Lemma watermarks_le_refl (m : gmap ContentType Time) : watermarks_le m m.
Proof. intros ct. apply watermark_le_refl. Qed.

Lemma watermarks_le_trans (a b c : gmap ContentType Time) :
  watermarks_le a b -> watermarks_le b c -> watermarks_le a c.
Proof. intros Hab Hbc ct. eapply watermark_le_trans; [apply Hab|apply Hbc]. Qed.

(** What any fetch leaves alone, what it moves and what it sends. *)
Lemma fetch_frame (ct : ContentType) (rq : ResourceRequest) (r : Resource)
    (s : System World) :
  config (watcher (fetch ct rq r s).2) = config (watcher s) /\
  queue (watcher (fetch ct rq r s).2) = queue (watcher s) /\
  watermarks_le (lastRequestTime (watcher s))
                (lastRequestTime (watcher (fetch ct rq r s).2)) /\
  watermarks_le (lastContentCreated (watcher s))
                (lastContentCreated (watcher (fetch ct rq r s).2)) /\
  exists r', out (fetch ct rq r s).2 = out s ++ [r'] /\ Request r' = Request r.
Proof.
  destruct (Content_List ct (windowOf ct rq (watcher s)).1
              (windowOf ct rq (watcher s)).2 (world s)) as [[content|err] w1] eqn:Hl.
  - rewrite (fetch_listed ct rq r s content w1 Hl). cbn zeta.
    destruct (fetchContent_verdicts ct (getLastContentCreated ct (watcher s))
                content r [] (afterListing ct rq s w1))
      as (H1 & _ & _ & _ & _ & _ & H7 & H8 & H9 & _ & H11 & H12).
    simpl. rewrite H8, H9, H11, H12, H7. simpl.
    repeat split; try reflexivity.
    + intros ct'. apply setLast_le.
    + intros ct'. apply foldl_verdictWatermark_le.
    + eexists. split; [reflexivity|]. simpl. exact H1.
  - rewrite (fetch_failed ct rq r s err w1 Hl). simpl.
    repeat split; try reflexivity; try apply watermarks_le_refl.
    eexists. split; reflexivity.
Qed.

(** What a tick leaves alone and what it puts on the bus. *)
Lemma generatorTick_frame (t : Time) (s : System World) :
  out (generatorTick t s).2 = out s /\
  config (watcher (generatorTick t s).2) = config (watcher s) /\
  lastContentCreated (watcher (generatorTick t s).2) = lastContentCreated (watcher s) /\
  lastRequestTime (watcher (generatorTick t s).2) = lastRequestTime (watcher s) /\
  exists added,
    queue (watcher (generatorTick t s).2) = queue (watcher s) ++ added /\
    Forall (fun r => Response r = []) added.
Proof.
  unfold generatorTick, bind, remote.
  destruct (Subscription_List (world s)) as [[subscriptions|err] w1].
  - match goal with
    | |- context [generatorLoop t subscriptions emptyResource ?s1] =>
        destruct (generatorLoop_frame t subscriptions emptyResource s1)
          as (_ & _ & Ho & Hc & Hlc & Hlr & _ & _ & added & Hq & Hall);
        destruct (generatorLoop t subscriptions emptyResource s1) as [r' s']
    end.
    simpl in *. repeat (split; [assumption|]).
    exists added. split; [assumption|].
    eapply Forall_impl; [exact Hall|]. simpl. tauto.
  - simpl.
    destruct (sendResourceOrSkip_spec (AddError emptyResource err) (watcher s))
      as (Hc & _ & Hlc & Hlr & Hq).
    repeat (split; [assumption || reflexivity|]).
    eexists. split; [exact Hq|].
    case_decide; repeat constructor.
Qed.

Lemma receive_spec (s s1 : System World) (r : Resource) :
  receive s = Some (r, s1) ->
  queue (watcher s) = r :: queue (watcher s1) /\
  config (watcher s1) = config (watcher s) /\
  contentTypeBusy (watcher s1) = contentTypeBusy (watcher s) /\
  lastContentCreated (watcher s1) = lastContentCreated (watcher s) /\
  lastRequestTime (watcher s1) = lastRequestTime (watcher s) /\
  world s1 = world s /\ calls s1 = calls s /\ out s1 = out s.
Proof.
  unfold receive. intros Hrecv.
  destruct (queue (watcher s)) as [|r0 q]; [discriminate Hrecv|].
  injection Hrecv as <- <-. simpl. tauto.
Qed.

Lemma fetcherBody_done (r : Resource) (s s' : System World) :
  fetcherBody r s = Done s' ->
  exists rq ct, Request r = Some rq /\ req_ContentType rq = Some ct /\
                s' = (fetch ct rq r s).2.
Proof.
  unfold fetcherBody. intros Hdone.
  destruct (Request r) as [rq|]; [|discriminate Hdone].
  destruct (req_ContentType rq) as [ct|] eqn:Hct; [|discriminate Hdone].
  injection Hdone as <-. exists rq, ct. auto.
Qed.

Lemma fetchStep_step (s s' : System World) : fetchStep s = Some s' -> step s s'.
Proof.
  unfold fetchStep. intros Hrun.
  destruct (receive s) as [[r s1]|] eqn:Hr; [|discriminate Hrun].
  destruct (fetcherBody r s1) as [s2|] eqn:Hf; [|discriminate Hrun].
  injection Hrun as <-. eapply step_fetch; eassumption.
Qed.

(** A step never lowers a watermark and keeps the two invariants. *)
Lemma step_frame (s s' : System World) :
  step s s' ->
  watermarks_le (lastContentCreated (watcher s)) (lastContentCreated (watcher s')) /\
  watermarks_le (lastRequestTime (watcher s)) (lastRequestTime (watcher s')) /\
  (busInv s -> busInv s') /\
  (outInv s -> outInv s').
Proof.
  intros Hstep. destruct Hstep as [t s|r s s1 s' Hrecv Hbody].
  - destruct (generatorTick_frame t s) as (Ho & _ & Hlc & Hlr & added & Hq & Hall).
    unfold busInv, outInv. rewrite Ho, Hlc, Hlr, Hq.
    repeat split; try apply watermarks_le_refl; auto.
    intros Hbus. apply Forall_app. auto.
  - destruct (receive_spec s s1 r Hrecv)
      as (Hq & _ & _ & Hlc & Hlr & _ & _ & Ho).
    destruct (fetcherBody_done r s1 s' Hbody) as (rq & ct & Hrq & Hct & ->).
    destruct (fetch_frame ct rq r s1) as (_ & Fq & Flr & Flc & r' & Fo & Fr).
    unfold busInv, outInv. rewrite <- Hlc, <- Hlr, Fq, Fo, Ho, Hq.
    repeat split; auto.
    + intros Hbus. inversion Hbus; assumption.
    + intros Hout. apply Forall_app. split; [assumption|].
      constructor; [|constructor]. exists rq, ct. rewrite Fr. auto.
Qed.

Lemma reachable_inv (conf : SubscriptionWatcherConfig) (w0 : World)
    (s : System World) :
  reachable conf w0 s -> busInv s /\ outInv s.
Proof.
  induction 1 as [s (w & Hnew & ->)|s s' _ [IHb IHo] Hstep].
  - unfold NewSubscriptionWatcher in Hnew.
    repeat match type of Hnew with
           | (if ?b then _ else _) = _ => destruct b; [discriminate|]
           end.
    injection Hnew as <-. split; constructor.
  - destruct (step_frame s s' Hstep) as (_ & _ & Hb & Ho). auto.
Qed.

Lemma steps_watermarks (s s' : System World) :
  rtc step s s' ->
  watermarks_le (lastContentCreated (watcher s)) (lastContentCreated (watcher s')) /\
  watermarks_le (lastRequestTime (watcher s)) (lastRequestTime (watcher s')).
Proof.
  induction 1 as [s|s s1 s2 Hstep _ [IHc IHr]].
  - split; apply watermarks_le_refl.
  - destruct (step_frame s s1 Hstep) as (Hc & Hr & _).
    split; eapply watermarks_le_trans; eassumption.
Qed.

End Steps.

(** ** Properties of a fetch *)

Section FetchProperties.
Context {World : Type} `{E : Env World}.

(** C4. When Content.List fails, the fetch sends exactly one Resource: the
    received request, no record and the error after those it already held.
    Neither watermark map changes and the content type is left not busy, so
    the next tick finds it eligible. *)
Theorem content_list_failure_emits_error_resource
    (conf : SubscriptionWatcherConfig) (w0 : World) (s s1 : System World)
    (r : Resource) (rq : ResourceRequest) (ct : ContentType)
    (err : error) (w' : World) :
  reachable conf w0 s ->
  receive s = Some (r, s1) ->
  Request r = Some rq ->
  req_ContentType rq = Some ct ->
  Content_List ct (windowOf ct rq (watcher s1)).1 (windowOf ct rq (watcher s1)).2
    (world s1) = (Err err, w') ->
  exists s',
    fetcherBody r s1 = Done s' /\
    out s' = out s ++ [ {| Request := Some rq; Response := [];
                           Errors := Errors r ++ [err] |} ] /\
    lastRequestTime (watcher s') = lastRequestTime (watcher s) /\
    lastContentCreated (watcher s') = lastContentCreated (watcher s) /\
    contentTypeBusy (watcher s') !! ct = Some false /\
    isBusy ct (watcher s') = (false, watcher s').
Proof.
  intros Hreach Hrecv Hrq Hct Hlist.
  destruct (reachable_inv conf w0 s Hreach) as [Hbus _].
  destruct (receive_spec s s1 r Hrecv) as (Hq & _ & _ & Hlc & Hlr & _ & _ & Ho).
  assert (Hresp : Response r = []).
  { unfold busInv in Hbus. rewrite Hq in Hbus. inversion Hbus; assumption. }
  exists (fetch ct rq r s1).2. split.
  { unfold fetcherBody. rewrite Hrq, Hct. reflexivity. }
  rewrite (fetch_failed ct rq r s1 err w' Hlist). simpl.
  rewrite Ho, Hlc, Hlr. unfold AddError. rewrite Hrq, Hresp.
  repeat split.
  - apply lookup_insert_eq.
  - unfold isBusy. simpl. rewrite lookup_insert_eq. reflexivity.
Qed.

(** C3, amended. Every Resource on the output names a content type in its
    request. (Its response and its error list may both be empty.) *)
Theorem emitted_resources_name_content_type
    (conf : SubscriptionWatcherConfig) (w0 : World) (s : System World) :
  reachable conf w0 s -> Forall contentTypeSet (out s).
Proof. intros Hreach. apply (reachable_inv conf w0 s Hreach). Qed.

(** C5, amended. The loop over the descriptors gives each descriptor the
    verdict that fits it: skipped when its parsed creation time is at most
    the value of lastContentCreated read before the loop, audited when it is
    later. Audit.List is called for the audited descriptors and no other, in
    order; the records it returns are appended; and each audited descriptor
    pushes the stored watermark through the monotonic setter, which leaves
    it at least as late as that descriptor's creation time. *)
Theorem fetchContent_audits_fresh_descriptors
    (ct : ContentType) (lastCreated : Time) (content : list Content)
    (r : Resource) (records : list AuditRecord) (s : System World) :
  let res := fetchContent ct lastCreated content r records s in
  let vs := (verdicts lastCreated content (world s)).1 in
  Forall2 (classified lastCreated) content vs /\
  calls res.2 = calls s ++ flat_map verdictCalls vs /\
  res.1.2 = records ++ flat_map verdictRecords vs /\
  lastContentCreated (watcher res.2)
    = foldl (verdictWatermark ct) (lastContentCreated (watcher s)) vs /\
  Forall (fun v => match v with
                   | Audited _ created _ =>
                       created <= getLastContentCreated ct (watcher res.2)
                   | _ => True
                   end) vs.
Proof.
  cbn zeta.
  destruct (fetchContent_verdicts ct lastCreated content r records s)
    as (_ & _ & _ & H4 & _ & H6 & _ & _ & _ & _ & _ & H12).
  split; [apply verdicts_classified|].
  repeat (split; [assumption|]).
  apply Forall_forall. intros [e| |id created listed] Hin; try exact I.
  unfold getLastContentCreated. rewrite H12.
  eapply foldl_verdictWatermark_ge. exact Hin.
Qed.

(** C7. When Content.List succeeds the fetch sends exactly one Resource,
    whatever happens to single descriptors: every descriptor of the listing
    gets its verdict, the error of each parse or Audit.List failure is in the
    Resource's error list, and the records of every descriptor whose
    Audit.List succeeded are in its response. *)
Theorem descriptor_failure_does_not_abort_resource
    (ct : ContentType) (rq : ResourceRequest) (r : Resource) (s : System World)
    (content : list Content) (w1 : World) :
  Content_List ct (windowOf ct rq (watcher s)).1 (windowOf ct rq (watcher s)).2
    (world s) = (Ok content, w1) ->
  let vs := (verdicts (getLastContentCreated ct (watcher s)) content w1).1 in
  exists r',
    out (fetch ct rq r s).2 = out s ++ [r'] /\
    Forall2 (classified (getLastContentCreated ct (watcher s))) content vs /\
    calls (fetch ct rq r s).2
      = calls s ++ CallContentList ct (windowOf ct rq (watcher s)).1
                                      (windowOf ct rq (watcher s)).2
                   :: flat_map verdictCalls vs /\
    Errors r' = Errors r ++ flat_map verdictErrors vs /\
    Response r' = flat_map verdictRecords vs /\
    (forall e, ParseFailed e ∈ vs -> e ∈ Errors r') /\
    (forall id created e, Audited id created (Err e) ∈ vs -> e ∈ Errors r') /\
    (forall id created audits a,
        Audited id created (Ok audits) ∈ vs -> a ∈ audits -> a ∈ Response r').
Proof.
  intros Hlist vs.
  rewrite (fetch_listed ct rq r s content w1 Hlist). cbn zeta.
  destruct (fetchContent_verdicts ct (getLastContentCreated ct (watcher s))
              content r [] (afterListing ct rq s w1))
    as (_ & _ & H3 & H4 & _ & H6 & H7 & _).
  simpl in H3, H4, H6, H7. fold vs in H3, H4, H6.
  eexists. simpl. split; [rewrite H7; reflexivity|].
  split; [apply verdicts_classified|].
  split; [rewrite H6, <- app_assoc; reflexivity|].
  split; [exact H3|]. split; [exact H4|].
  cbn [SetResponse Errors Response]. rewrite H3, H4. repeat split.
  - intros e Hin. apply elem_of_app. right.
    apply list_elem_of_In, in_flat_map. exists (ParseFailed e).
    split; [apply list_elem_of_In; exact Hin|simpl; auto].
  - intros id created e Hin. apply elem_of_app. right.
    apply list_elem_of_In, in_flat_map. exists (Audited id created (Err e)).
    split; [apply list_elem_of_In; exact Hin|simpl; auto].
  - intros id created audits a Hin Ha.
    apply list_elem_of_In, in_flat_map. exists (Audited id created (Ok audits)).
    split; [apply list_elem_of_In; exact Hin|simpl; apply list_elem_of_In; exact Ha].
Qed.

End FetchProperties.

Section Retry.
Context {World : Type} `{E : Env World}.

(** The loop over a listing cut in two. *)
Lemma fetchContent_app (ct : ContentType) (lastCreated : Time) (xs ys : list Content) :
  forall (r : Resource) (records : list AuditRecord) (s : System World),
    fetchContent ct lastCreated (xs ++ ys) r records s
    = fetchContent ct lastCreated ys
        (fetchContent ct lastCreated xs r records s).1.1
        (fetchContent ct lastCreated xs r records s).1.2
        (fetchContent ct lastCreated xs r records s).2.
Proof.
  induction xs as [|c rest IH]; intros r records s; simpl; [reflexivity|].
  destruct (ParseInLocation (ContentCreated c)) as [created|e]; [|apply IH].
  destruct (negb (After created lastCreated)); [apply IH|].
  unfold bind, modifyW, remote. simpl.
  destruct (Audit_List (ContentID c) (world s)) as [[audits|e] w1]; apply IH.
Qed.

Lemma foldl_verdictWatermark_stored (ct : ContentType) (vs : list verdict)
    (id : string) (created : Time) (listed : result (list AuditRecord))
    (m : gmap ContentType Time) :
  Audited id created listed ∈ vs ->
  exists l : Time, foldl (verdictWatermark ct) m vs !! ct = Some l /\ created <= l.
Proof.
  intros Hin. pose proof (foldl_verdictWatermark_ge ct vs id created listed m Hin) as Hge.
  apply list_elem_of_split in Hin as (vs1 & vs2 & ->).
  rewrite foldl_app in *. simpl in *.
  pose proof (foldl_verdictWatermark_le ct ct vs2
                (setLast ct created (foldl (verdictWatermark ct) m vs1))) as Hle.
  rewrite setLast_lookup in Hle. unfold getLast in Hge.
  destruct (foldl (verdictWatermark ct) _ vs2 !! ct) as [l|]; [|contradiction].
  exists l. auto.
Qed.

(** A descriptor that is not later than the value read before the loop is
    skipped wherever it stands in the listing. *)
Lemma verdicts_skip_stale (lastCreated : Time) (content : list Content)
    (w : World) (c : Content) (created : Time) (i : nat) :
  ParseInLocation (ContentCreated c) = Ok created ->
  created <= lastCreated ->
  content !! i = Some c ->
  (verdicts lastCreated content w).1 !! i = Some Skipped.
Proof.
  intros Hparse Hle Hi.
  destruct (Forall2_lookup_l _ _ _ i c (verdicts_classified lastCreated content w) Hi)
    as (v & Hv & Hclass).
  rewrite Hv. f_equal. destruct v as [e| |id created' listed]; simpl in Hclass.
  - congruence.
  - reflexivity.
  - destruct Hclass as (_ & Hp & Hlt). rewrite Hparse in Hp.
    injection Hp as <-. lia.
Qed.

(** C9, amended. A descriptor that passes the check goes through the
    monotonic setter, which leaves the stored lastContentCreated at the
    larger of its previous value and the descriptor's creation time, and
    only then is Audit.List called. When that call fails the error is
    recorded and no record is added; the watermark stays. From then on, in
    any state the watcher reaches, the watermark is at least the creation
    time, and a fetch for the same content type skips the descriptor
    wherever Content.List returns it: it adds no call and no record. *)
Theorem audit_failure_is_never_retried
    (ct : ContentType) (rq : ResourceRequest) (r : Resource) (s : System World)
    (pre post : list Content) (c : Content) (w1 : World)
    (created : Time) (err : error) :
  Content_List ct (windowOf ct rq (watcher s)).1 (windowOf ct rq (watcher s)).2
    (world s) = (Ok (pre ++ c :: post), w1) ->
  ParseInLocation (ContentCreated c) = Ok created ->
  getLastContentCreated ct (watcher s) < created ->
  let lastCreated := getLastContentCreated ct (watcher s) in
  let reached := fetchContent ct lastCreated pre r [] (afterListing ct rq s w1) in
  (Audit_List (ContentID c) (world reached.2)).1 = Err err ->
  let after := fetchContent ct lastCreated (pre ++ [c]) r [] (afterListing ct rq s w1) in
  let s1 := (fetch ct rq r s).2 in
  lastContentCreated (watcher after.2) !! ct
    = Some (storedMax (lastContentCreated (watcher reached.2) !! ct) created) /\
  calls after.2 = calls reached.2 ++ [CallAuditList (ContentID c)] /\
  after.1.2 = reached.1.2 /\
  Errors after.1.1 = Errors reached.1.1 ++ [err] /\
  forall s2 : System World,
    rtc step s1 s2 ->
    created <= getLastContentCreated ct (watcher s2) /\
    forall (rq' : ResourceRequest) (r' : Resource) (content' : list Content) (w' : World),
      Content_List ct (windowOf ct rq' (watcher s2)).1 (windowOf ct rq' (watcher s2)).2
        (world s2) = (Ok content', w') ->
      let vs := (verdicts (getLastContentCreated ct (watcher s2)) content' w').1 in
      (forall i, content' !! i = Some c -> vs !! i = Some Skipped) /\
      calls (fetch ct rq' r' s2).2
        = calls s2 ++ CallContentList ct (windowOf ct rq' (watcher s2)).1
                                         (windowOf ct rq' (watcher s2)).2
                      :: flat_map verdictCalls vs /\
      exists r2,
        out (fetch ct rq' r' s2).2 = out s2 ++ [r2] /\
        Response r2 = flat_map verdictRecords vs.
Proof.
  intros Hlist Hparse Hfresh lastCreated reached Haudit after s1.
  assert (Hafter : after = fetchContent ct lastCreated [c] reached.1.1 reached.1.2 reached.2)
    by (subst after reached; apply fetchContent_app).
  assert (Hstep :
    lastContentCreated (watcher after.2) !! ct
      = Some (storedMax (lastContentCreated (watcher reached.2) !! ct) created) /\
    calls after.2 = calls reached.2 ++ [CallAuditList (ContentID c)] /\
    after.1.2 = reached.1.2 /\
    Errors after.1.1 = Errors reached.1.1 ++ [err]).
  { rewrite Hafter. simpl. rewrite Hparse. unfold After.
    destruct (Z.ltb_spec lastCreated created) as [_|Hge]; [|lia]. simpl.
    unfold bind, modifyW, remote, ret. simpl.
    destruct (Audit_List (ContentID c) (world reached.2)) as [listed w2].
    simpl in Haudit. subst listed. simpl.
    split; [apply setLast_lookup|]. auto. }
  destruct Hstep as (S1 & S2 & S3 & S4).
  repeat (split; [assumption|]).
  (* the watermark once the fetch is over *)
  assert (Hstored : exists l : Time,
             lastContentCreated (watcher s1) !! ct = Some l /\ created <= l).
  { subst s1. rewrite (fetch_listed ct rq r s _ w1 Hlist). cbn zeta. simpl.
    destruct (fetchContent_verdicts ct lastCreated (pre ++ c :: post) r []
                (afterListing ct rq s w1)) as (_ & _ & _ & _ & _ & _ & _ & _ & _ & _ & _ & H12).
    fold lastCreated. rewrite H12.
    apply (foldl_verdictWatermark_stored ct _ (ContentID c) created
             (Audit_List (ContentID c)
                (verdicts lastCreated pre (world (afterListing ct rq s w1))).2).1).
    rewrite verdicts_app. simpl. apply elem_of_app. right.
    rewrite Hparse. destruct (Z.leb_spec created lastCreated); [lia|].
    simpl. left. }
  destruct Hstored as (l & Hl & Hle).
  intros s2 Hsteps.
  destruct (steps_watermarks s1 s2 Hsteps) as [Hmono _].
  assert (Hlater : created <= getLastContentCreated ct (watcher s2)).
  { unfold watermarks_le in Hmono. specialize (Hmono ct). rewrite Hl in Hmono.
    unfold getLastContentCreated, getLast.
    destruct (lastContentCreated (watcher s2) !! ct); simpl in Hmono; [lia|contradiction]. }
  split; [exact Hlater|].
  intros rq' r' content' w' Hlist' vs.
  split.
  { intros i Hi. apply (verdicts_skip_stale _ _ _ c created); assumption. }
  rewrite (fetch_listed ct rq' r' s2 content' w' Hlist'). cbn zeta. simpl.
  destruct (fetchContent_verdicts ct (getLastContentCreated ct (watcher s2))
              content' r' [] (afterListing ct rq' s2 w'))
    as (_ & _ & _ & H4 & _ & H6 & H7 & _).
  simpl in H4, H6, H7. fold vs in H4, H6.
  split; [rewrite H6, <- app_assoc; reflexivity|].
  eexists. split; [rewrite H7; reflexivity|]. exact H4.
Qed.

End Retry.

(** ** The scenarios, run *)

Lemma initial_watcherA : initial confA tt (systemOf watcherA).
Proof. exists watcherA. split; reflexivity. Qed.

Lemma reachable_sysE1 : reachable (E := envE) confA tt sysE1.
Proof.
  eapply reach_step; [apply reach_init, initial_watcherA|].
  apply (step_tick (E := envE) t1200).
Qed.

Lemma reachable_sysQ2 : reachable (E := envQuiet) confA tt sysQ2.
Proof.
  eapply reach_step.
  - eapply reach_step; [apply reach_init, initial_watcherA|].
    apply (step_tick (E := envQuiet) t1200).
  - apply fetchStep_step. vm_compute. reflexivity.
Qed.

(** Scenario D: the fetch for SharePoint after the tick at 12:00. *)
Lemma content_list_failure_emits_error_resource_witness :
  let s1 := {| watcher := with_queue [resourceFor AuditExchange t1200] (watcher sysE1);
               world := tt; calls := calls sysE1; out := out sysE1 |} in
  exists s',
    fetcherBody (E := envE) (resourceFor AuditSharePoint t1200) s1 = Done s' /\
    out s' = out sysE1 ++ [ {| Request := Some (requestFor AuditSharePoint t1200);
                               Response := [];
                               Errors := Errors (resourceFor AuditSharePoint t1200)
                                         ++ ["transport error"%string] |} ] /\
    lastRequestTime (watcher s') = lastRequestTime (watcher sysE1) /\
    lastContentCreated (watcher s') = lastContentCreated (watcher sysE1) /\
    contentTypeBusy (watcher s') !! AuditSharePoint = Some false /\
    isBusy AuditSharePoint (watcher s') = (false, watcher s').
Proof.
  cbn zeta.
  apply (@content_list_failure_emits_error_resource unit envE confA tt sysE1 _
           (resourceFor AuditSharePoint t1200) (requestFor AuditSharePoint t1200)
           AuditSharePoint "transport error"%string tt).
  - exact reachable_sysE1.
  - vm_compute. reflexivity.
  - reflexivity.
  - reflexivity.
  - reflexivity.
Defined.

(** The output of the quiet scenario satisfies the invariant. *)
Lemma emitted_resources_name_content_type_witness :
  Forall contentTypeSet (out sysQ2).
Proof.
  apply (@emitted_resources_name_content_type unit envQuiet confA tt sysQ2).
  exact reachable_sysQ2.
Defined.

(** C3, as stated, fails: with nothing new to fetch, the Resource that
    reaches the output has neither a record nor an error. *)
Lemma quiet_fetch_emits_empty_resource :
  reachable (E := envQuiet) confA tt sysQ2 /\
  exists r, out sysQ2 = [r] /\ Response r = [] /\ Errors r = [].
Proof.
  split; [exact reachable_sysQ2|].
  exists (resourceFor AuditExchange t1200).
  split; [vm_compute; reflexivity|]. split; reflexivity.
Qed.

(** C5, as stated, fails on a listing that comes newest first. When the loop
    reaches C1 (11:30) the stored watermark is already 12:02, yet C1 is not
    skipped: Audit.List is called for it and its record is appended. Nor is
    the watermark set to 11:30 afterwards: it stays at 12:02. *)
Lemma newest_first_listing_is_fetched_whole :
  let s := systemOf watcherA in
  let lastCreated := getLastContentCreated AuditExchange (watcher s) in
  let r := resourceFor AuditExchange t1200 in
  let reached := fetchContent (E := envNewestFirst) AuditExchange lastCreated
                   [C2_1202] r [] s in
  let res := fetchContent (E := envNewestFirst) AuditExchange lastCreated
               [C2_1202; C1_1130] r [] s in
  ParseInLocation (Env := envNewestFirst) (ContentCreated C1_1130) = Ok t1130 /\
  lastContentCreated (watcher reached.2) !! AuditExchange = Some t1202 /\
  t1130 <= t1202 /\
  calls res.2 = [CallAuditList "C2"; CallAuditList "C1"] /\
  res.1.2 = [record "r3"; record "r1"] /\
  lastContentCreated (watcher res.2) !! AuditExchange = Some t1202 /\
  t1202 <> t1130.
Proof.
  cbn zeta. repeat split; try (vm_compute; congruence).
Qed.

(** Scenario E: the audits of C1 cannot be listed, those of C2 can. *)
Lemma descriptor_failure_does_not_abort_resource_witness :
  exists r',
    out (fetch (E := envE) AuditExchange (requestFor AuditExchange t1200)
           (resourceFor AuditExchange t1200) (systemOf watcherA)).2 = [r'] /\
    Errors r' = ["audit error C1"%string] /\
    Response r' = [record "r5"].
Proof.
  destruct (@descriptor_failure_does_not_abort_resource unit envE AuditExchange
              (requestFor AuditExchange t1200) (resourceFor AuditExchange t1200)
              (systemOf watcherA) [C1_1130; C2_1202] tt eq_refl)
    as (r' & Hout & _ & _ & He & Hr & _).
  exists r'. split; [exact Hout|]. split; [exact He|exact Hr].
Defined.

(** Scenario E continued: at the next fetch C1 is skipped. *)
Lemma audit_failure_is_never_retried_witness :
  let s1 := (fetch (E := envE) AuditExchange (requestFor AuditExchange t1200)
               (resourceFor AuditExchange t1200) (systemOf watcherA)).2 in
  t1130 <= getLastContentCreated AuditExchange (watcher s1) /\
  (verdicts (E := envE) (getLastContentCreated AuditExchange (watcher s1))
     [C1_1130; C2_1202] tt).1 !! 0%nat = Some Skipped.
Proof.
  cbn zeta.
  destruct (@audit_failure_is_never_retried unit envE AuditExchange
              (requestFor AuditExchange t1200) (resourceFor AuditExchange t1200)
              (systemOf watcherA) [] [C2_1202] C1_1130 tt t1130
              "audit error C1"%string eq_refl eq_refl eq_refl eq_refl)
    as (_ & _ & _ & _ & Hlater).
  destruct (Hlater _ (rtc_refl _ _)) as [Hge Hfetch].
  destruct (Hfetch (requestFor AuditExchange t1205) (resourceFor AuditExchange t1205)
              [C1_1130; C2_1202] tt eq_refl) as (Hskip & _).
  split; [exact Hge|]. exact (Hskip 0%nat eq_refl).
Defined.

(** C9, as stated, fails in its first clause on a listing that comes newest
    first: C1 (11:30) passes the check against the value read before the
    loop and Audit.List is called for it, but lastContentCreated is not
    updated to 11:30: the setter keeps 12:02. *)
Lemma older_descriptor_leaves_watermark :
  let s := systemOf watcherA in
  let lastCreated := getLastContentCreated AuditExchange (watcher s) in
  let res := fetchContent (E := envNewestFirst) AuditExchange lastCreated
               [C2_1202; C1_1130] (resourceFor AuditExchange t1200) [] s in
  ParseInLocation (Env := envNewestFirst) (ContentCreated C1_1130) = Ok t1130 /\
  After t1130 lastCreated = true /\
  last (calls res.2) = Some (CallAuditList "C1") /\
  getLastContentCreated AuditExchange (watcher res.2) = t1202 /\
  t1202 <> t1130.
Proof.
  cbn zeta. repeat split; try (vm_compute; congruence).
Qed.

(** * Further properties *)

(** ** schema/record.go: names and codes *)

Lemma String_literals_checked :
  Forall (fun e => GetRecordType e.2 = Ok e.1 /\ AuditLogRecordType_String e.1 = e.2)
         String_literals.
Proof. apply (bool_decide_unpack _). vm_compute. exact I. Qed.

Lemma literals_entries_checked :
  Forall (fun e => AuditLogRecordType_String e.2 = e.1) literals_entries.
Proof. apply (bool_decide_unpack _). vm_compute. exact I. Qed.

(** The two tables of record types agree: the name [String] gives a declared
    code is the name [GetRecordType] resolves to that code, and a name that
    [GetRecordType] resolves prints back as itself. A code without a name
    prints as the empty string, which [GetRecordType] rejects. *)
Theorem record_type_names_round_trip :
  (forall t name, (t, name) ∈ String_literals ->
     GetRecordType name = Ok t /\ AuditLogRecordType_String t = name) /\
  (forall s t, GetRecordType s = Ok t -> AuditLogRecordType_String t = s) /\
  (forall t, AuditLogRecordType_String t = EmptyString \/
             GetRecordType (AuditLogRecordType_String t) = Ok t) /\
  GetRecordType EmptyString = Err "record type  invalid"%string /\
  AuditLogRecordType_String 5 = EmptyString.
Proof.
  assert (Hfwd : forall t name, (t, name) ∈ String_literals ->
            GetRecordType name = Ok t /\ AuditLogRecordType_String t = name).
  { intros t name Hin.
    exact (proj1 (Forall_forall _ _) String_literals_checked (t, name) Hin). }
  split; [exact Hfwd|]. split; [|split; [|split; reflexivity]].
  - intros s t Hget. unfold GetRecordType in Hget.
    destruct (literals !! s) as [t'|] eqn:Hl; [|discriminate Hget].
    injection Hget as ->.
    apply elem_of_list_to_map_2 in Hl.
    exact (proj1 (Forall_forall _ _) literals_entries_checked (s, t) Hl).
  - intros t. unfold AuditLogRecordType_String.
    destruct ((list_to_map String_literals : gmap Z string) !! t) as [name|] eqn:Hl;
      [|left; reflexivity].
    right. simpl. apply elem_of_list_to_map_2 in Hl. apply (Hfwd t name Hl).
Qed.



(** The names of the user types: the nine declared codes print as nine
    different, non-empty names; every other code prints as the empty
    string. *)
Theorem UserType_String_names :
  (forall t, 0 <= t <= 8 -> UserType_String t <> EmptyString) /\
  (forall t, t < 0 \/ 8 < t -> UserType_String t = EmptyString) /\
  (forall t u, 0 <= t <= 8 -> UserType_String t = UserType_String u -> t = u).
Proof.
  assert (Hout : forall t, t < 0 \/ 8 < t -> UserType_String t = EmptyString).
  { intros t Ht. unfold UserType_String.
    rewrite (not_elem_of_list_to_map_1 (M := gmap Z)); [reflexivity|].
    vm_compute fmap. rewrite !elem_of_cons, elem_of_nil. lia. }
  assert (Hin : forall t, 0 <= t <= 8 ->
            t = 0 \/ t = 1 \/ t = 2 \/ t = 3 \/ t = 4 \/ t = 5 \/ t = 6 \/ t = 7 \/ t = 8)
    by (intros; lia).
  split; [|split; [exact Hout|]].
  - intros t Ht. destruct (Hin t Ht) as [->|[->|[->|[->|[->|[->|[->|[->| ->]]]]]]]];
      vm_compute; discriminate.
  - intros t u Ht Heq.
    destruct (Z_le_dec 0 u) as [H0|H0]; [destruct (Z_le_dec u 8) as [H8|H8]|].
    + destruct (Hin t Ht) as [->|[->|[->|[->|[->|[->|[->|[->| ->]]]]]]]];
        destruct (Hin u (conj H0 H8)) as [->|[->|[->|[->|[->|[->|[->|[->| ->]]]]]]]];
        try reflexivity; vm_compute in Heq; discriminate Heq.
    + rewrite (Hout u) in Heq by lia.
      destruct (Hin t Ht) as [->|[->|[->|[->|[->|[->|[->|[->| ->]]]]]]]];
        vm_compute in Heq; discriminate Heq.
    + rewrite (Hout u) in Heq by lia.
      destruct (Hin t Ht) as [->|[->|[->|[->|[->|[->|[->|[->| ->]]]]]]]];
        vm_compute in Heq; discriminate Heq.
Qed.

(** Content types and their names: [String] then [GetContentType] is the
    identity, a name that resolves prints back as itself, and
    [ContentTypeValid] holds exactly of the five names, so that
    [GetContentType] cannot fail after it. *)
Theorem content_type_names_round_trip :
  (forall c, GetContentType (ContentType_String c) = Ok c) /\
  (forall s c, GetContentType s = Ok c -> ContentType_String c = s) /\
  (forall s, ContentTypeValid s = true <-> exists c, s = ContentType_String c) /\
  (forall s, ContentTypeValid s = true -> exists c, GetContentType s = Ok c) /\
  (forall s, ContentTypeValid s = false ->
             GetContentType s = Err "ContentType invalid"%string).
Proof.
  assert (Hfwd : forall c, GetContentType (ContentType_String c) = Ok c)
    by (intros []; reflexivity).
  assert (Hbwd : forall s c, GetContentType s = Ok c -> ContentType_String c = s).
  { intros s c Hget. unfold GetContentType in Hget.
    destruct (contentTypes !! s) as [c'|] eqn:Hl; [|discriminate Hget].
    injection Hget as ->. apply elem_of_list_to_map_2 in Hl.
    rewrite !elem_of_cons, elem_of_nil in Hl.
    destruct Hl as [H|[H|[H|[H|[H|[]]]]]]; injection H as -> ->; reflexivity. }
  split; [exact Hfwd|]. split; [exact Hbwd|]. split; [|split].
  - intros s. unfold ContentTypeValid. split.
    + destruct (GetContentType s) as [c|e] eqn:Hget; [|discriminate].
      intros _. exists c. symmetry. apply Hbwd, Hget.
    + intros [c ->]. rewrite Hfwd. reflexivity.
  - intros s. unfold ContentTypeValid.
    destruct (GetContentType s) as [c|e]; [eauto|discriminate].
  - intros s. unfold ContentTypeValid, GetContentType.
    destruct (contentTypes !! s); [discriminate|reflexivity].
Qed.

Lemma GetContentTypes_map (entries : list (string * ContentType)) :
  GetContentTypes entries = entries.*2.
Proof.
  unfold GetContentTypes.
  assert (H : forall acc, foldl (fun result e => result ++ [e.2]) acc entries
                          = acc ++ entries.*2).
  { induction entries as [|e rest IH]; intros acc; simpl.
    - rewrite app_nil_r. reflexivity.
    - rewrite IH, <- app_assoc. reflexivity. }
  apply (H []).
Qed.

(** Whatever order the range over the map takes, [GetContentTypes] returns
    each of the five content types exactly once. *)
Theorem GetContentTypes_lists_each_once (entries : list (string * ContentType)) :
  entries ≡ₚ map_to_list contentTypes ->
  GetContentTypes entries
    ≡ₚ [AuditAzureActiveDirectory; AuditExchange; AuditSharePoint; AuditGeneral; DLPAll] /\
  NoDup (GetContentTypes entries) /\
  forall c, c ∈ GetContentTypes entries.
Proof.
  intros Hperm.
  assert (Hall : GetContentTypes entries
            ≡ₚ [AuditAzureActiveDirectory; AuditExchange; AuditSharePoint;
                AuditGeneral; DLPAll]).
  { rewrite GetContentTypes_map, Hperm. unfold contentTypes.
    rewrite map_to_list_to_map; [reflexivity|].
    apply (bool_decide_unpack _). vm_compute. exact I. }
  split; [exact Hall|]. split.
  - rewrite Hall. apply (bool_decide_unpack _). vm_compute. exact I.
  - intros c. rewrite Hall. destruct c; set_solver.
Qed.

Lemma GetContentTypes_lists_each_once_witness :
  GetContentTypes (map_to_list contentTypes)
    ≡ₚ [AuditAzureActiveDirectory; AuditExchange; AuditSharePoint; AuditGeneral; DLPAll] /\
  NoDup (GetContentTypes (map_to_list contentTypes)) /\
  forall c, c ∈ GetContentTypes (map_to_list contentTypes).
Proof.
  apply (GetContentTypes_lists_each_once (map_to_list contentTypes)). reflexivity.
Defined.

(** ** The state store, further *)

(** The busy flag: what [setBusy] and [unsetBusy] write is what [isBusy]
    reads, without changing the state again; a flag never written reads as
    not busy and is recorded so; reading twice is reading once; and the
    flags of other content types are not touched. *)
Theorem busy_flag_round_trip (ct ct' : ContentType) (w : SubscriptionWatcher) :
  isBusy ct (setBusy ct w) = (true, setBusy ct w) /\
  isBusy ct (unsetBusy ct w) = (false, unsetBusy ct w) /\
  (contentTypeBusy w !! ct = None -> isBusy ct w = (false, unsetBusy ct w)) /\
  isBusy ct (isBusy ct w).2 = isBusy ct w /\
  (ct <> ct' ->
   (isBusy ct' (setBusy ct w)).1 = (isBusy ct' w).1 /\
   (isBusy ct' (unsetBusy ct w)).1 = (isBusy ct' w).1 /\
   (isBusy ct' (isBusy ct w).2).1 = (isBusy ct' w).1).
Proof.
  unfold isBusy, setBusy, unsetBusy. simpl.
  rewrite !lookup_insert_eq.
  split; [reflexivity|]. split; [reflexivity|].
  split; [intros ->; reflexivity|]. split.
  - destruct (contentTypeBusy w !! ct) as [b|] eqn:Hb; simpl.
    + rewrite Hb. reflexivity.
    + rewrite lookup_insert_eq. reflexivity.
  - intros Hne. rewrite !lookup_insert_ne by assumption.
    split; [destruct (contentTypeBusy w !! ct'); reflexivity|].
    split; [destruct (contentTypeBusy w !! ct'); reflexivity|].
    destruct (contentTypeBusy w !! ct) as [b|]; simpl; [reflexivity|].
    rewrite lookup_insert_ne by assumption.
    destruct (contentTypeBusy w !! ct'); reflexivity.
Qed.

(** Each watermark setter writes its own map at its own content type and
    nothing else: the other watermark, the other content types, the busy
    flags and the bus read as before; what it wrote reads back as at least
    the value written. *)
Theorem watermark_setters_are_local
    (ct ct' : ContentType) (t : Time) (w : SubscriptionWatcher) :
  getLastContentCreated ct' (setLastRequestTime ct t w) = getLastContentCreated ct' w /\
  getLastRequestTime ct' (setLastContentCreated ct t w) = getLastRequestTime ct' w /\
  isBusy ct' (setLastRequestTime ct t w)
    = ((isBusy ct' w).1, setLastRequestTime ct t (isBusy ct' w).2) /\
  isBusy ct' (setLastContentCreated ct t w)
    = ((isBusy ct' w).1, setLastContentCreated ct t (isBusy ct' w).2) /\
  queue (setLastRequestTime ct t w) = queue w /\
  queue (setLastContentCreated ct t w) = queue w /\
  t <= getLastRequestTime ct (setLastRequestTime ct t w) /\
  t <= getLastContentCreated ct (setLastContentCreated ct t w) /\
  (ct <> ct' ->
   getLastRequestTime ct' (setLastRequestTime ct t w) = getLastRequestTime ct' w /\
   getLastContentCreated ct' (setLastContentCreated ct t w)
     = getLastContentCreated ct' w).
Proof.
  assert (Hge : forall m : gmap ContentType Time, t <= getLast ct (setLast ct t m)).
  { intros m. unfold getLast. rewrite setLast_lookup.
    destruct (m !! ct); simpl; lia. }
  repeat split; try reflexivity; try apply Hge.
  - unfold isBusy. simpl. destruct (contentTypeBusy w !! ct'); reflexivity.
  - unfold isBusy. simpl. destruct (contentTypeBusy w !! ct'); reflexivity.
  - unfold getLastRequestTime, getLast. simpl.
    rewrite setLast_lookup_ne by assumption. reflexivity.
  - unfold getLastContentCreated, getLast. simpl.
    rewrite setLast_lookup_ne by assumption. reflexivity.
Qed.

(** ** Window derivation, further *)

Lemma Sub_cases (t u : Time) :
  (Sub t u = t - u /\ minInt64 <= t - u <= maxInt64) \/
  (Sub t u = minInt64 /\ t - u < minInt64) \/
  (Sub t u = maxInt64 /\ maxInt64 < t - u).
Proof.
  unfold Sub. cbn zeta.
  destruct (Z.ltb_spec (t - u) minInt64); [right; left; auto|].
  destruct (Z.ltb_spec maxInt64 (t - u)); [right; right; auto|].
  left. split; [reflexivity|lia].
Qed.

Lemma accepted_lookBehind (conf : SubscriptionWatcherConfig) (w : SubscriptionWatcher) :
  NewSubscriptionWatcher conf = Ok w ->
  0 < durationOf (LookBehindMinutes conf) Minute <= 24 * Hour /\
  0 < durationOf (TickerIntervalSeconds conf) Second <= Hour /\
  config w = conf.
Proof.
  unfold NewSubscriptionWatcher. cbn zeta.
  destruct (Z.leb_spec (durationOf (LookBehindMinutes conf) Minute) 0);
    [discriminate|].
  destruct (Z.ltb_spec (24 * Hour) (durationOf (LookBehindMinutes conf) Minute));
    [discriminate|].
  destruct (Z.leb_spec (durationOf (TickerIntervalSeconds conf) Second) 0);
    [discriminate|].
  destruct (Z.ltb_spec Hour (durationOf (TickerIntervalSeconds conf) Second));
    [discriminate|].
  intros [= <-]. simpl. repeat split; assumption.
Qed.

(** For a configuration the constructor accepted, the window of a fetch
    always ends at the request time and never spans more than a day; it is
    a proper window (start before end) except when the stored request time
    lies between a minute and a day after the request time, where start is
    after end. *)
Theorem fetchWindow_spans_at_most_a_day
    (conf : SubscriptionWatcherConfig) (w : SubscriptionWatcher) (L R : Time) :
  NewSubscriptionWatcher conf = Ok w ->
  (fetchWindow conf L R).2 = R /\
  - (24 * Hour) <= (fetchWindow conf L R).2 - (fetchWindow conf L R).1 <= 24 * Hour /\
  ((fetchWindow conf L R).1 < (fetchWindow conf L R).2 <->
   (L = 0 \/ L - R < Minute \/ intervalOneDay < L - R)).
Proof.
  intros Hnew. destruct (accepted_lookBehind conf w Hnew) as ([Hd0 Hd1] & _ & _).
  unfold fetchWindow. cbn zeta.
  set (d := durationOf (LookBehindMinutes conf) Minute) in *.
  assert (Hneg : neg d = - d).
  { unfold neg. apply wrap64_small.
    revert Hd0 Hd1. unfold minInt64, maxInt64, Hour, Minute, Second. lia. }
  assert (Hnegday : neg intervalOneDay = - intervalOneDay) by reflexivity.
  unfold IsZero, Add.
  destruct (Z.eqb_spec L 0) as [HL|HL]; simpl.
  { rewrite Hneg. repeat split; try lia. }
  destruct (Sub_cases L R) as [[Hs Hr]|[[Hs Hr]|[Hs Hr]]]; rewrite Hs.
  - destruct (Z.ltb_spec (L - R) Minute); simpl.
    { rewrite Hneg. repeat split; try lia. }
    destruct (Z.ltb_spec intervalOneDay (L - R)); simpl.
    { rewrite Hnegday. unfold intervalOneDay in *. repeat split; try lia. }
    revert H H0. unfold intervalOneDay, Hour, Minute, Second.
    intros. repeat split; try lia.
  - replace (minInt64 <? Minute) with true by reflexivity. simpl.
    rewrite Hneg. revert Hr. unfold minInt64, Minute, Second. intros.
    repeat split; try lia.
  - replace (maxInt64 <? Minute) with false by reflexivity.
    replace (intervalOneDay <? maxInt64) with true by reflexivity. simpl.
    rewrite Hnegday. revert Hr. unfold maxInt64, intervalOneDay, Hour, Minute, Second.
    intros. repeat split; try lia.
Qed.

(** ** The generator, further *)

Section GeneratorFurther.
Context {World : Type} `{E : Env World}.

Lemma busy_extends_refl (m : gmap ContentType bool) : busy_extends m m.
Proof. split; auto. Qed.

Lemma busy_extends_trans (a b c : gmap ContentType bool) :
  busy_extends a b -> busy_extends b c -> busy_extends a c.
Proof. intros [H1 H2] [H3 H4]. split; eauto. Qed.

Lemma isBusy_extends (ct : ContentType) (w : SubscriptionWatcher) :
  busy_extends (contentTypeBusy w) (contentTypeBusy (isBusy ct w).2) /\
  ((isBusy ct w).1 = false -> contentTypeBusy w !! ct <> Some true).
Proof.
  unfold isBusy. destruct (contentTypeBusy w !! ct) as [b|] eqn:Hb; simpl.
  - split; [apply busy_extends_refl|]. intros ->. discriminate.
  - split; [|discriminate]. split.
    + intros c b Hc. rewrite lookup_insert_ne; [exact Hc|]. congruence.
    + intros c Hc. destruct (decide (ct = c)) as [<-|Hne].
      * rewrite lookup_insert_eq in Hc. discriminate.
      * rewrite lookup_insert_ne in Hc by assumption. exact Hc.
Qed.

Lemma busy_extends_idle (m m' : gmap ContentType bool) (ct : ContentType) :
  busy_extends m m' -> m' !! ct <> Some true -> m !! ct <> Some true.
Proof. intros [Hkeep _] Hidle Hm. apply Hidle, Hkeep, Hm. Qed.

(** The busy map through the loop, and the requests of what it enqueues. *)
Lemma generatorLoop_requests (t : Time) (subscriptions : list Subscription) :
  forall (m0 : gmap ContentType bool) (r0 : Resource) (s : System World),
    busy_extends m0 (contentTypeBusy (watcher s)) ->
    (Request r0 = None \/ freshRequest t m0 (Request r0)) ->
    busy_extends m0 (contentTypeBusy (watcher (generatorLoop t subscriptions r0 s).2)) /\
    exists added,
      queue (watcher (generatorLoop t subscriptions r0 s).2)
        = queue (watcher s) ++ added /\
      Forall (fun r => Request r = None \/ freshRequest t m0 (Request r)) added.
Proof.
  induction subscriptions as [|sub rest IH]; intros m0 r0 s Hm Hr0; simpl.
  - split; [exact Hm|]. exists []. rewrite app_nil_r. split; [reflexivity|constructor].
  - destruct (GetContentType (sub_ContentType sub)) as [ct|err].
    + unfold bind, stateW.
      destruct (isBusy_extends ct (watcher s)) as [Hext Hidle].
      destruct (isBusy_spec ct (watcher s)) as (_ & Bq & _ & _).
      destruct (isBusy ct (watcher s)) as [busy w1]; simpl in *.
      assert (Hm1 : busy_extends m0 (contentTypeBusy w1))
        by (eapply busy_extends_trans; eassumption).
      destruct busy; simpl.
      * destruct (IH m0 r0 {| watcher := w1; world := world s;
                              calls := calls s; out := out s |} Hm1 Hr0)
          as (Hb & added & Hq & Hall).
        split; [exact Hb|]. exists added. simpl in Hq. rewrite Hq, Bq. auto.
      * unfold bind, modifyW. simpl.
        assert (Hfresh : Request (SetRequest r0 ct t) = None \/
                         freshRequest t m0 (Request (SetRequest r0 ct t))).
        { right. exists ct. split; [reflexivity|].
          eapply busy_extends_idle; [exact Hm|]. apply Hidle. reflexivity. }
        destruct (sendResourceOrSkip_spec (SetRequest r0 ct t) w1)
          as (_ & Sb & _ & _ & Sq).
        match goal with
        | |- context [generatorLoop t rest ?r ?s1] =>
            destruct (IH m0 r s1) as (Hb & added & Hq & Hall)
        end.
        { simpl. rewrite Sb. exact Hm1. }
        { exact Hfresh. }
        split; [exact Hb|]. simpl in Hq. rewrite Hq, Sq, Bq, <- app_assoc.
        eexists. split; [reflexivity|].
        apply Forall_app. split; [|exact Hall].
        match goal with |- context [decide ?P] => destruct (decide P) end;
          [constructor; [exact Hfresh|constructor]|constructor].
    + unfold bind, modifyW. simpl.
      destruct (sendResourceOrSkip_spec (AddError r0 err) (watcher s))
        as (_ & Sb & _ & _ & Sq).
      match goal with
      | |- context [generatorLoop t rest ?r ?s1] =>
          destruct (IH m0 r s1) as (Hb & added & Hq & Hall)
      end.
      { simpl. rewrite Sb. exact Hm. }
      { exact Hr0. }
      split; [exact Hb|]. simpl in Hq. rewrite Hq, Sq, <- app_assoc.
      eexists. split; [reflexivity|].
      apply Forall_app. split; [|exact Hall].
      match goal with |- context [decide ?P] => destruct (decide P) end;
        [constructor; [exact Hr0|constructor]|constructor].
Qed.

(** Every Resource a tick puts on the bus either has no request or asks,
    with the instant of the tick as its request time, for a content type
    that was not marked busy when the tick started. *)
Theorem tick_requests_only_idle_content_types (t : Time) (s : System World) :
  exists added,
    queue (watcher (generatorTick t s).2) = queue (watcher s) ++ added /\
    Forall (fun r => Request r = None \/
                     freshRequest t (contentTypeBusy (watcher s)) (Request r))
           added.
Proof.
  unfold generatorTick, bind, remote.
  destruct (Subscription_List (world s)) as [[subscriptions|err] w1].
  - match goal with
    | |- context [generatorLoop t subscriptions emptyResource ?s1] =>
        destruct (generatorLoop_requests t subscriptions
                    (contentTypeBusy (watcher s)) emptyResource s1)
          as (_ & added & Hq & Hall);
        [apply busy_extends_refl|left; reflexivity|];
        destruct (generatorLoop t subscriptions emptyResource s1) as [r' s']
    end.
    exists added. simpl in *. auto.
  - simpl.
    destruct (sendResourceOrSkip_spec (AddError emptyResource err) (watcher s))
      as (_ & _ & _ & _ & Sq).
    eexists. split; [exact Sq|].
    match goal with |- context [decide ?P] => destruct (decide P) end;
      [constructor; [left; reflexivity|constructor]|constructor].
Qed.

(** A tick makes one remote call, the listing of the subscriptions. It
    leaves the output, the configuration and both watermark maps as they
    were, keeps every busy flag and marks no content type busy. *)
Theorem tick_calls_only_subscription_list (t : Time) (s : System World) :
  calls (generatorTick t s).2 = calls s ++ [CallSubscriptionList] /\
  out (generatorTick t s).2 = out s /\
  config (watcher (generatorTick t s).2) = config (watcher s) /\
  lastContentCreated (watcher (generatorTick t s).2) = lastContentCreated (watcher s) /\
  lastRequestTime (watcher (generatorTick t s).2) = lastRequestTime (watcher s) /\
  busy_extends (contentTypeBusy (watcher s))
               (contentTypeBusy (watcher (generatorTick t s).2)).
Proof.
  destruct (generatorTick_frame t s) as (Ho & Hc & Hlc & Hlr & _).
  split; [|repeat (split; [assumption|])].
  - unfold generatorTick, bind, remote.
    destruct (Subscription_List (world s)) as [[subscriptions|err] w1]; [|reflexivity].
    match goal with
    | |- context [generatorLoop t subscriptions emptyResource ?s1] =>
        destruct (generatorLoop_frame t subscriptions emptyResource s1)
          as (_ & Hcalls & _);
        destruct (generatorLoop t subscriptions emptyResource s1) as [r' s']
    end.
    simpl in *. exact Hcalls.
  - unfold generatorTick, bind, remote.
    destruct (Subscription_List (world s)) as [[subscriptions|err] w1].
    + match goal with
      | |- context [generatorLoop t subscriptions emptyResource ?s1] =>
          destruct (generatorLoop_requests t subscriptions
                      (contentTypeBusy (watcher s)) emptyResource s1)
            as (Hb & _);
          [apply busy_extends_refl|left; reflexivity|];
          destruct (generatorLoop t subscriptions emptyResource s1) as [r' s']
      end.
      simpl in *. exact Hb.
    + simpl.
      destruct (sendResourceOrSkip_spec (AddError emptyResource err) (watcher s))
        as (_ & -> & _). apply busy_extends_refl.
Qed.

(** The loop when every subscription resolves to an idle content type and
    the bus has room for all of them. *)
Lemma generatorLoop_all_idle (t : Time) (subscriptions : list Subscription)
    (cts : list ContentType) :
  Forall2 (fun sub ct => GetContentType (sub_ContentType sub) = Ok ct)
          subscriptions cts ->
  forall (r0 : Resource) (s : System World),
    Response r0 = [] -> Errors r0 = [] ->
    Forall (fun ct => contentTypeBusy (watcher s) !! ct <> Some true) cts ->
    (length (queue (watcher s)) + length subscriptions <= contentTypeCount)%nat ->
    queue (watcher (generatorLoop t subscriptions r0 s).2)
    = queue (watcher s) ++ map (fun ct => resourceFor ct t) cts.
Proof.
  induction 1 as [|sub ct rest cts' Hget _ IH]; intros r0 s Hresp Herr Hidle Hroom; simpl.
  - rewrite app_nil_r. reflexivity.
  - rewrite Hget. unfold bind, stateW.
    inversion Hidle as [|? ? Hct Hrest]; subst.
    destruct (isBusy_extends ct (watcher s)) as [[_ Hnew] _].
    destruct (isBusy_spec ct (watcher s)) as (_ & Bq & _ & _).
    assert (Hflag : (isBusy ct (watcher s)).1 = false).
    { unfold isBusy. destruct (contentTypeBusy (watcher s) !! ct) as [[]|];
        simpl; congruence. }
    destruct (isBusy ct (watcher s)) as [busy w1]; simpl in *. subst busy.
    unfold bind, modifyW. simpl.
    destruct (sendResourceOrSkip_spec (SetRequest r0 ct t) w1)
      as (_ & Sb & _ & _ & Sq).
    rewrite IH.
    + simpl. rewrite Sq, Bq, decide_True by lia.
      rewrite <- app_assoc. simpl. unfold SetRequest, resourceFor, SetRequest.
      rewrite Hresp, Herr. reflexivity.
    + exact Hresp.
    + exact Herr.
    + simpl. rewrite Sb. eapply Forall_impl; [exact Hrest|].
      intros c Hc Htrue. apply Hc, Hnew, Htrue.
    + simpl. rewrite Sq, Bq, decide_True by lia.
      rewrite length_app. simpl. lia.
Qed.

(** When the listing succeeds, every subscription resolves to a content type
    not marked busy and the bus has room for all of them, the tick enqueues
    one Resource per subscription, in the order of the listing: the request
    for that content type at the instant of the tick, no record, no error. *)
Theorem tick_enqueues_one_request_per_subscription
    (t : Time) (s : System World) (subscriptions : list Subscription)
    (cts : list ContentType) (w' : World) :
  Subscription_List (world s) = (Ok subscriptions, w') ->
  Forall2 (fun sub ct => GetContentType (sub_ContentType sub) = Ok ct)
          subscriptions cts ->
  Forall (fun ct => contentTypeBusy (watcher s) !! ct <> Some true) cts ->
  (length (queue (watcher s)) + length subscriptions <= contentTypeCount)%nat ->
  queue (watcher (generatorTick t s).2)
  = queue (watcher s) ++ map (fun ct => resourceFor ct t) cts.
Proof.
  intros Hlist Hres Hidle Hroom.
  unfold generatorTick, bind, remote. rewrite Hlist.
  match goal with
  | |- context [generatorLoop t subscriptions emptyResource ?s1] =>
      pose proof (generatorLoop_all_idle t subscriptions cts Hres emptyResource s1
                    eq_refl eq_refl Hidle Hroom) as Hq;
      destruct (generatorLoop t subscriptions emptyResource s1) as [r' s']
  end.
  simpl in *. exact Hq.
Qed.

(** The loop on a full bus. *)
Lemma generatorLoop_full (t : Time) (subscriptions : list Subscription) :
  forall (r0 : Resource) (s : System World),
    length (queue (watcher s)) = contentTypeCount ->
    queue (watcher (generatorLoop t subscriptions r0 s).2) = queue (watcher s).
Proof.
  induction subscriptions as [|sub rest IH]; intros r0 s Hfull; simpl; [reflexivity|].
  destruct (GetContentType (sub_ContentType sub)) as [ct|err].
  - unfold bind, stateW.
    destruct (isBusy_spec ct (watcher s)) as (_ & Bq & _ & _).
    destruct (isBusy ct (watcher s)) as [busy w1]; simpl in *.
    destruct busy; simpl.
    + rewrite IH; simpl; congruence.
    + unfold bind, modifyW. simpl.
      destruct (sendResourceOrSkip_spec (SetRequest r0 ct t) w1)
        as (_ & _ & _ & _ & Sq).
      rewrite Bq in Sq.
      rewrite decide_False, app_nil_r in Sq by lia.
      rewrite IH; simpl; congruence.
  - unfold bind, modifyW. simpl.
    destruct (sendResourceOrSkip_spec (AddError r0 err) (watcher s))
      as (_ & _ & _ & _ & Sq).
    rewrite decide_False, app_nil_r in Sq by lia.
    rewrite IH; simpl; congruence.
Qed.

Lemma tick_full_helper (t : Time) (s : System World) :
  length (queue (watcher s)) = contentTypeCount ->
  queue (watcher (generatorTick t s).2) = queue (watcher s).
Proof.
  intros Hfull. unfold generatorTick, bind, remote.
  destruct (Subscription_List (world s)) as [[subscriptions|err] w1].
  - match goal with
    | |- context [generatorLoop t subscriptions emptyResource ?s1] =>
        pose proof (generatorLoop_full t subscriptions emptyResource s1 Hfull) as Hq;
        destruct (generatorLoop t subscriptions emptyResource s1) as [r' s']
    end.
    simpl in *. exact Hq.
  - simpl.
    destruct (sendResourceOrSkip_spec (AddError emptyResource err) (watcher s))
      as (_ & _ & _ & _ & Sq).
    rewrite decide_False, app_nil_r in Sq by lia. exact Sq.
Qed.

(** A tick that finds the bus full puts nothing on it, whatever the
    subscriptions are and whether or not they can be listed. *)
Theorem tick_on_full_bus_enqueues_nothing (t : Time) (s : System World) :
  length (queue (watcher s)) = contentTypeCount ->
  queue (watcher (generatorTick t s).2) = queue (watcher s).
Proof. apply tick_full_helper. Qed.

(** The bus never holds more Resources than its capacity. *)
Lemma step_bus_bound (s s' : System World) :
  step s s' ->
  (length (queue (watcher s)) <= contentTypeCount)%nat ->
  (length (queue (watcher s')) <= contentTypeCount)%nat.
Proof.
  intros Hstep Hb. destruct Hstep as [t s|r s s1 s' Hrecv Hbody].
  - destruct (le_lt_eq_dec _ _ Hb) as [Hlt|Heq].
    + clear Hb. revert Hlt.
      unfold generatorTick, bind, remote.
      destruct (Subscription_List (world s)) as [[subscriptions|err] w1].
      * intros Hlt.
        assert (Hloop : forall subs r0 (s0 : System World),
                   (length (queue (watcher s0)) <= contentTypeCount)%nat ->
                   (length (queue (watcher (generatorLoop t subs r0 s0).2))
                    <= contentTypeCount)%nat).
        { induction subs as [|sub rest IH]; intros r0 s0 H0; simpl; [exact H0|].
          destruct (GetContentType (sub_ContentType sub)) as [ct|err].
          - unfold bind, stateW.
            destruct (isBusy_spec ct (watcher s0)) as (_ & Bq & _ & _).
            destruct (isBusy ct (watcher s0)) as [busy w2]; simpl in *.
            destruct busy; simpl.
            + apply IH. simpl. rewrite Bq. exact H0.
            + unfold bind, modifyW. simpl. apply IH. simpl.
              destruct (sendResourceOrSkip_spec (SetRequest r0 ct t) w2)
                as (_ & _ & _ & _ & ->).
              rewrite length_app, Bq. case_decide; simpl; lia.
          - unfold bind, modifyW. simpl. apply IH. simpl.
            destruct (sendResourceOrSkip_spec (AddError r0 err) (watcher s0))
              as (_ & _ & _ & _ & ->).
            rewrite length_app. case_decide; simpl; lia. }
        match goal with
        | |- context [generatorLoop t subscriptions emptyResource ?s1] =>
            pose proof (Hloop subscriptions emptyResource s1) as Hq;
            destruct (generatorLoop t subscriptions emptyResource s1) as [r' s']
        end.
        simpl in *. apply Hq. lia.
      * intros Hlt. simpl.
        destruct (sendResourceOrSkip_spec (AddError emptyResource err) (watcher s))
          as (_ & _ & _ & _ & ->).
        rewrite length_app. case_decide; simpl; lia.
    + rewrite tick_full_helper; [exact Hb|exact Heq].
  - destruct (receive_spec s s1 r Hrecv) as (Hq & _).
    destruct (fetcherBody_done r s1 s' Hbody) as (rq & ct & _ & _ & ->).
    destruct (fetch_frame ct rq r s1) as (_ & Fq & _).
    rewrite Fq. rewrite Hq in Hb. simpl in Hb. lia.
Qed.

End GeneratorFurther.

(** ** The fetcher, further *)

Section FetcherFurther.
Context {World : Type} `{E : Env World}.

(** In every state the watcher reaches, the bus holds at most
    [contentTypeCount] Resources. *)
Theorem bus_never_exceeds_capacity
    (conf : SubscriptionWatcherConfig) (w0 : World) (s : System World) :
  reachable conf w0 s ->
  (length (queue (watcher s)) <= contentTypeCount)%nat.
Proof.
  induction 1 as [s (w & Hnew & ->)|s s' _ IH Hstep].
  - unfold NewSubscriptionWatcher in Hnew.
    repeat match type of Hnew with
           | (if ?b then _ else _) = _ => destruct b; [discriminate|]
           end.
    injection Hnew as <-. simpl. unfold contentTypeCount. lia.
  - eapply step_bus_bound; eassumption.
Qed.



Lemma foldl_verdictWatermark_ne (ct ct' : ContentType) (vs : list verdict) :
  ct <> ct' ->
  forall m : gmap ContentType Time,
    foldl (verdictWatermark ct) m vs !! ct' = m !! ct'.
Proof.
  intros Hne. induction vs as [|v vs IH]; intros m; simpl; [reflexivity|].
  rewrite IH. destruct v; simpl; try reflexivity.
  apply setLast_lookup_ne. exact Hne.
Qed.

(** A fetch for one content type leaves the busy flag and both watermarks
    of every other content type, the bus and the configuration as they
    were, and leaves its own content type not busy. *)
Theorem fetch_changes_only_its_content_type
    (ct ct' : ContentType) (rq : ResourceRequest) (r : Resource) (s : System World) :
  ct <> ct' ->
  contentTypeBusy (watcher (fetch ct rq r s).2) !! ct'
    = contentTypeBusy (watcher s) !! ct' /\
  lastRequestTime (watcher (fetch ct rq r s).2) !! ct'
    = lastRequestTime (watcher s) !! ct' /\
  lastContentCreated (watcher (fetch ct rq r s).2) !! ct'
    = lastContentCreated (watcher s) !! ct' /\
  queue (watcher (fetch ct rq r s).2) = queue (watcher s) /\
  config (watcher (fetch ct rq r s).2) = config (watcher s) /\
  contentTypeBusy (watcher (fetch ct rq r s).2) !! ct = Some false.
Proof.
  intros Hne.
  destruct (Content_List ct (windowOf ct rq (watcher s)).1
              (windowOf ct rq (watcher s)).2 (world s)) as [[content|err] w1] eqn:Hl.
  - rewrite (fetch_listed ct rq r s content w1 Hl). cbn zeta.
    destruct (fetchContent_verdicts ct (getLastContentCreated ct (watcher s))
                content r [] (afterListing ct rq s w1))
      as (_ & _ & _ & _ & _ & _ & _ & H8 & H9 & H10 & H11 & H12).
    simpl. rewrite H8, H9, H10, H11, H12. simpl.
    rewrite lookup_insert_eq, !lookup_insert_ne by assumption.
    rewrite setLast_lookup_ne, foldl_verdictWatermark_ne by assumption.
    repeat split; reflexivity.
  - rewrite (fetch_failed ct rq r s err w1 Hl). simpl.
    rewrite lookup_insert_eq, !lookup_insert_ne by assumption.
    repeat split; reflexivity.
Qed.


(** A floor under the watermark: the loop only writes values later than the
    one it read. *)
Lemma foldl_watermark_floor (ct : ContentType) (g : Time) (vs : list verdict) :
  Forall (fun v => match v with
                   | Audited _ created _ => g < created
                   | _ => True
                   end) vs ->
  forall m : gmap ContentType Time,
    g <= getLast ct m ->
    g <= getLast ct (foldl (verdictWatermark ct) m vs).
Proof.
  induction 1 as [|v vs Hv _ IH]; intros m Hm; simpl; [exact Hm|].
  apply IH. destruct v as [e| |id created listed]; simpl; try exact Hm.
  unfold getLast in *. rewrite setLast_lookup.
  destruct (m !! ct); simpl; lia.
Qed.

Lemma classified_later (lastCreated : Time) (content : list Content)
    (vs : list verdict) :
  Forall2 (classified lastCreated) content vs ->
  Forall (fun v => match v with
                   | Audited _ created _ => lastCreated < created
                   | _ => True
                   end) vs.
Proof.
  induction 1 as [|c v content vs Hc _ IH]; constructor; [|exact IH].
  destruct v; simpl in *; tauto.
Qed.

(** What [getLastContentCreated] reads never decreases through a fetch, and
    after the fetch it is at least the creation time of every descriptor of
    the listing that parses. *)
Lemma fetch_reading (ct : ContentType) (rq : ResourceRequest) (r : Resource)
    (s : System World) :
  (forall ct', getLastContentCreated ct' (watcher s)
               <= getLastContentCreated ct' (watcher (fetch ct rq r s).2)) /\
  forall content w1,
    Content_List ct (windowOf ct rq (watcher s)).1 (windowOf ct rq (watcher s)).2
      (world s) = (Ok content, w1) ->
    forall c created,
      c ∈ content -> ParseInLocation (ContentCreated c) = Ok created ->
      created <= getLastContentCreated ct (watcher (fetch ct rq r s).2).
Proof.
  destruct (Content_List ct (windowOf ct rq (watcher s)).1
              (windowOf ct rq (watcher s)).2 (world s)) as [[content|err] w1] eqn:Hl.
  - rewrite (fetch_listed ct rq r s content w1 Hl). cbn zeta.
    destruct (fetchContent_verdicts ct (getLastContentCreated ct (watcher s))
                content r [] (afterListing ct rq s w1))
      as (_ & _ & _ & _ & _ & _ & _ & _ & _ & _ & _ & H12).
    pose proof (verdicts_classified (getLastContentCreated ct (watcher s)) content
                  (world (afterListing ct rq s w1))) as Hclass.
    unfold getLastContentCreated in *. simpl in *. rewrite H12.
    assert (Hfloor : getLast ct (lastContentCreated (watcher s))
              <= getLast ct (foldl (verdictWatermark ct)
                               (lastContentCreated (watcher s))
                               (verdicts (getLast ct (lastContentCreated (watcher s)))
                                  content w1).1)).
    { apply foldl_watermark_floor; [|lia].
      eapply classified_later. exact Hclass. }
    split.
    + intros ct'. destruct (decide (ct = ct')) as [<-|Hne]; [exact Hfloor|].
      unfold getLast. rewrite foldl_verdictWatermark_ne by assumption. lia.
    + intros content0 w2 [= <- <-] c created Hin Hparse.
      apply list_elem_of_lookup in Hin as [i Hi].
      destruct (Forall2_lookup_l _ _ _ i c Hclass Hi) as (v & Hv & Hcv).
      destruct v as [e| |id created' listed]; simpl in Hcv.
      * congruence.
      * destruct Hcv as (created' & Hp & Hle). rewrite Hparse in Hp.
        injection Hp as <-. lia.
      * destruct Hcv as (_ & Hp & _). rewrite Hparse in Hp. injection Hp as <-.
        eapply foldl_verdictWatermark_ge.
        apply list_elem_of_lookup. exists i. exact Hv.
  - rewrite (fetch_failed ct rq r s err w1 Hl). simpl.
    split; [intros; unfold getLastContentCreated; simpl; lia|].
    intros content w2 Hk. discriminate Hk.
Qed.

Lemma steps_reading (s s' : System World) :
  rtc step s s' ->
  forall ct, getLastContentCreated ct (watcher s)
             <= getLastContentCreated ct (watcher s').
Proof.
  induction 1 as [s|s s1 s2 Hstep _ IH]; intros ct; [lia|].
  etrans; [|apply IH].
  destruct Hstep as [t s|r s s0 s1 Hrecv Hbody].
  - destruct (generatorTick_frame t s) as (_ & _ & Hlc & _).
    unfold getLastContentCreated. rewrite Hlc. lia.
  - destruct (receive_spec s s0 r Hrecv) as (_ & _ & _ & Hlc & _).
    destruct (fetcherBody_done r s0 s1 Hbody) as (rq & ct0 & _ & _ & ->).
    destruct (fetch_reading ct0 rq r s0) as [Hmono _].
    specialize (Hmono ct). unfold getLastContentCreated in *.
    rewrite Hlc in Hmono. exact Hmono.
Qed.

Lemma quiet_verdicts (lastCreated : Time) (content : list Content) (w : World) :
  (forall c created, c ∈ content -> ParseInLocation (ContentCreated c) = Ok created ->
                     created <= lastCreated) ->
  flat_map verdictCalls (verdicts lastCreated content w).1 = [] /\
  flat_map verdictRecords (verdicts lastCreated content w).1 = [].
Proof.
  revert w. induction content as [|c rest IH]; intros w Hall; simpl; [auto|].
  assert (Hrest : forall c' created, c' ∈ rest ->
            ParseInLocation (ContentCreated c') = Ok created -> created <= lastCreated).
  { intros c' created Hin. apply Hall. apply list_elem_of_further, Hin. }
  destruct (ParseInLocation (ContentCreated c)) as [created|e] eqn:Hp.
  - pose proof (Hall c created (list_elem_of_here _ _) Hp) as Hle.
    destruct (Z.leb_spec created lastCreated); [|lia].
    simpl. apply IH, Hrest.
  - simpl. apply IH, Hrest.
Qed.

(** Once a fetch has listed a descriptor, every later state of the watcher
    reads a lastContentCreated at least as late as that descriptor's
    creation time, so a later fetch for the same content type whose listing
    brings back nothing but such descriptors calls Content.List and nothing
    else, and sends an empty response. *)
Theorem listed_descriptors_are_not_audited_again
    (ct : ContentType) (rq : ResourceRequest) (r : Resource) (s : System World)
    (content : list Content) (w1 : World) :
  Content_List ct (windowOf ct rq (watcher s)).1 (windowOf ct rq (watcher s)).2
    (world s) = (Ok content, w1) ->
  forall s2 : System World,
    rtc step (fetch ct rq r s).2 s2 ->
    (forall c created,
        c ∈ content -> ParseInLocation (ContentCreated c) = Ok created ->
        created <= getLastContentCreated ct (watcher s2)) /\
    forall (rq' : ResourceRequest) (r' : Resource) (content' : list Content) (w' : World),
      Content_List ct (windowOf ct rq' (watcher s2)).1 (windowOf ct rq' (watcher s2)).2
        (world s2) = (Ok content', w') ->
      content' ⊆ content ->
      calls (fetch ct rq' r' s2).2
        = calls s2 ++ [CallContentList ct (windowOf ct rq' (watcher s2)).1
                                          (windowOf ct rq' (watcher s2)).2] /\
      exists r2,
        out (fetch ct rq' r' s2).2 = out s2 ++ [r2] /\ Response r2 = [].
Proof.
  intros Hlist s2 Hsteps.
  destruct (fetch_reading ct rq r s) as [_ Hcover].
  assert (Hlater : forall c created,
             c ∈ content -> ParseInLocation (ContentCreated c) = Ok created ->
             created <= getLastContentCreated ct (watcher s2)).
  { intros c created Hin Hp.
    etrans; [apply (Hcover content w1 Hlist c created Hin Hp)|].
    apply steps_reading, Hsteps. }
  split; [exact Hlater|].
  intros rq' r' content' w' Hlist' Hsub.
  rewrite (fetch_listed ct rq' r' s2 content' w' Hlist'). cbn zeta. simpl.
  destruct (fetchContent_verdicts ct (getLastContentCreated ct (watcher s2))
              content' r' [] (afterListing ct rq' s2 w'))
    as (_ & _ & _ & H4 & _ & H6 & H7 & _).
  destruct (quiet_verdicts (getLastContentCreated ct (watcher s2)) content' w')
    as [Hcalls Hrecords].
  { intros c created Hin. apply Hlater, Hsub, Hin. }
  simpl in H4, H6, H7. rewrite Hcalls in H6. rewrite Hrecords in H4.
  split; [rewrite H6, app_nil_r; reflexivity|].
  eexists. split; [rewrite H7; reflexivity|]. exact H4.
Qed.

Lemma fetch_calls_prefix (ct : ContentType) (rq : ResourceRequest) (r : Resource)
    (s : System World) :
  calls s `prefix_of` calls (fetch ct rq r s).2.
Proof.
  destruct (Content_List ct (windowOf ct rq (watcher s)).1
              (windowOf ct rq (watcher s)).2 (world s)) as [[content|err] w1] eqn:Hl.
  - rewrite (fetch_listed ct rq r s content w1 Hl). cbn zeta.
    destruct (fetchContent_verdicts ct (getLastContentCreated ct (watcher s))
                content r [] (afterListing ct rq s w1))
      as (_ & _ & _ & _ & _ & H6 & _).
    simpl in *. rewrite H6, <- app_assoc. apply prefix_app_r. reflexivity.
  - rewrite (fetch_failed ct rq r s err w1 Hl). simpl.
    apply prefix_app_r. reflexivity.
Qed.

(** Along any run of the watcher the output and the log of remote calls only
    grow at their end, and what [getLastContentCreated] reads for a content
    type never decreases. *)
Theorem run_only_appends (s s' : System World) :
  rtc step s s' ->
  out s `prefix_of` out s' /\
  calls s `prefix_of` calls s' /\
  forall ct, getLastContentCreated ct (watcher s)
             <= getLastContentCreated ct (watcher s').
Proof.
  intros Hsteps. split; [|split; [|apply steps_reading, Hsteps]].
  - induction Hsteps as [s|s s1 s2 Hstep _ IH]; [reflexivity|].
    etrans; [|exact IH].
    destruct Hstep as [t s|r s s0 s1 Hrecv Hbody].
    + destruct (generatorTick_frame t s) as (-> & _). reflexivity.
    + destruct (receive_spec s s0 r Hrecv) as (_ & _ & _ & _ & _ & _ & _ & Ho).
      destruct (fetcherBody_done r s0 s1 Hbody) as (rq & ct0 & _ & _ & ->).
      destruct (fetch_frame ct0 rq r s0) as (_ & _ & _ & _ & r' & -> & _).
      rewrite Ho. apply prefix_app_r. reflexivity.
  - induction Hsteps as [s|s s1 s2 Hstep _ IH]; [reflexivity|].
    etrans; [|exact IH].
    destruct Hstep as [t s|r s s0 s1 Hrecv Hbody].
    + unfold generatorTick, bind, remote.
      destruct (Subscription_List (world s)) as [[subscriptions|err] w1].
      * match goal with
        | |- context [generatorLoop t subscriptions emptyResource ?s1] =>
            destruct (generatorLoop_frame t subscriptions emptyResource s1)
              as (_ & Hcalls & _);
            destruct (generatorLoop t subscriptions emptyResource s1) as [r' s']
        end.
        simpl in *. rewrite Hcalls. apply prefix_app_r. reflexivity.
      * simpl. apply prefix_app_r. reflexivity.
    + destruct (receive_spec s s0 r Hrecv) as (_ & _ & _ & _ & _ & _ & Hc & _).
      destruct (fetcherBody_done r s0 s1 Hbody) as (rq & ct0 & _ & _ & ->).
      rewrite <- Hc. apply fetch_calls_prefix.
Qed.

End FetcherFurther.

(** ** The further properties on the scenarios *)

Lemma NewSubscriptionWatcher_bounds_witness :
  (exists w, NewSubscriptionWatcher confA = Ok w) <->
  (0 < LookBehindMinutes confA <= 1440 /\ 0 < TickerIntervalSeconds confA <= 3600).
Proof. apply (NewSubscriptionWatcher_bounds confA); simpl; lia. Defined.

Lemma fetchWindow_lookBehind_witness :
  fetchWindow confA t1200 t1205
  = (Add t1205 (neg (durationOf (LookBehindMinutes confA) Minute)), t1205).
Proof. apply (fetchWindow_lookBehind confA t1200 t1205). reflexivity. Defined.

Lemma fetchWindow_stored_witness :
  fetchWindow confA t1205 t1200 = (t1205, t1200).
Proof.
  apply (fetchWindow_stored confA t1205 t1200).
  - vm_compute. discriminate.
  - split; vm_compute; discriminate.
Defined.

Lemma fetchWindow_spans_at_most_a_day_witness :
  (fetchWindow confA t1205 t1200).2 = t1200 /\
  - (24 * Hour) <= (fetchWindow confA t1205 t1200).2 - (fetchWindow confA t1205 t1200).1
    <= 24 * Hour /\
  ((fetchWindow confA t1205 t1200).1 < (fetchWindow confA t1205 t1200).2 <->
   (t1205 = 0 \/ t1205 - t1200 < Minute \/ intervalOneDay < t1205 - t1200)).
Proof. exact (fetchWindow_spans_at_most_a_day confA watcherA t1205 t1200 eq_refl). Defined.

Lemma tick_enqueues_one_request_per_subscription_witness :
  queue (watcher (generatorTick (E := envE) t1200 (systemOf watcherA)).2)
  = queue (watcher (systemOf watcherA))
    ++ map (fun ct => resourceFor ct t1200) [AuditSharePoint; AuditExchange].
Proof.
  apply (@tick_enqueues_one_request_per_subscription unit envE t1200
           (systemOf watcherA)
           [subscription "Audit.SharePoint"; subscription "Audit.Exchange"]
           [AuditSharePoint; AuditExchange] tt).
  - reflexivity.
  - repeat constructor.
  - repeat constructor; simpl; discriminate.
  - simpl. unfold contentTypeCount. lia.
Defined.

Lemma reachable_sysFull : reachable (E := envE) confA tt sysFull.
Proof.
  eapply reach_step; [|apply (step_tick (E := envE) t1205)].
  eapply reach_step; [|apply (step_tick (E := envE) t1202)].
  exact reachable_sysE1.
Qed.

Lemma sysFull_is_full : length (queue (watcher sysFull)) = contentTypeCount.
Proof. vm_compute. reflexivity. Qed.

Lemma bus_never_exceeds_capacity_witness :
  (length (queue (watcher sysFull)) <= contentTypeCount)%nat.
Proof.
  apply (@bus_never_exceeds_capacity unit envE confA tt sysFull).
  exact reachable_sysFull.
Defined.

Lemma tick_on_full_bus_enqueues_nothing_witness :
  queue (watcher (generatorTick (E := envE) t1205 sysFull).2) = queue (watcher sysFull).
Proof.
  apply (@tick_on_full_bus_enqueues_nothing unit envE t1205 sysFull).
  exact sysFull_is_full.
Defined.

Lemma fetch_changes_only_its_content_type_witness :
  let s' := (fetch (E := envE) AuditExchange (requestFor AuditExchange t1205)
               (resourceFor AuditExchange t1205) (systemOf watcherB)).2 in
  contentTypeBusy (watcher s') !! AuditSharePoint
    = contentTypeBusy (watcher (systemOf watcherB)) !! AuditSharePoint /\
  lastRequestTime (watcher s') !! AuditSharePoint
    = lastRequestTime (watcher (systemOf watcherB)) !! AuditSharePoint /\
  lastContentCreated (watcher s') !! AuditSharePoint
    = lastContentCreated (watcher (systemOf watcherB)) !! AuditSharePoint /\
  queue (watcher s') = queue (watcher (systemOf watcherB)) /\
  config (watcher s') = config (watcher (systemOf watcherB)) /\
  contentTypeBusy (watcher s') !! AuditExchange = Some false.
Proof.
  cbn zeta.
  apply (@fetch_changes_only_its_content_type unit envE AuditExchange AuditSharePoint).
  discriminate.
Defined.

Lemma listed_descriptors_are_not_audited_again_witness :
  let s1 := (fetch (E := envE) AuditExchange (requestFor AuditExchange t1200)
               (resourceFor AuditExchange t1200) (systemOf watcherA)).2 in
  let rq' := requestFor AuditExchange t1205 in
  calls (fetch (E := envE) AuditExchange rq' (resourceFor AuditExchange t1205) s1).2
    = calls s1 ++ [CallContentList AuditExchange
                     (windowOf AuditExchange rq' (watcher s1)).1
                     (windowOf AuditExchange rq' (watcher s1)).2] /\
  exists r2,
    out (fetch (E := envE) AuditExchange rq' (resourceFor AuditExchange t1205) s1).2
      = out s1 ++ [r2] /\
    Response r2 = [].
Proof.
  cbn zeta.
  destruct (@listed_descriptors_are_not_audited_again unit envE AuditExchange
              (requestFor AuditExchange t1200) (resourceFor AuditExchange t1200)
              (systemOf watcherA) [C1_1130; C2_1202] tt eq_refl _ (rtc_refl _ _))
    as [_ Hagain].
  apply (Hagain (requestFor AuditExchange t1205) (resourceFor AuditExchange t1205)
           [C1_1130; C2_1202] tt eq_refl).
  intros c Hc. exact Hc.
Defined.

Lemma run_only_appends_witness :
  out sysQ1 `prefix_of` out sysQ2 /\
  calls sysQ1 `prefix_of` calls sysQ2 /\
  forall ct, getLastContentCreated ct (watcher sysQ1)
             <= getLastContentCreated ct (watcher sysQ2).
Proof.
  apply (@run_only_appends unit envQuiet sysQ1 sysQ2).
  apply rtc_once, fetchStep_step. vm_compute. reflexivity.
Defined.
